(** * ai_detect: the heuristic scoring pipelines, embedded and verified

    The repository carries two image heuristics modules:
    - [backend/app/services/image_detector.py] (v0.5, module [V05] below),
    - [backend/app/services/image_detector_enhanced.py] (v0.6, module [V06]).

    Scores are Python floats, that is IEEE 754 binary64 numbers; they are
    modelled by Rocq's primitive floats, whose operations are the same
    binary64 operations.  Pillow and NumPy are outside the repository: a
    decoded image is the record of what their queries answer. *)

From Stdlib Require Import ZArith Lia Bool List String Ascii Floats DecimalString.
From Stdlib.Strings Require Import Byte.
From Stdlib Require Uint63.
Import ListNotations.

Local Open Scope Z_scope.
Set Warnings "-inexact-float".

(** ** Binary64 ordering

    [Prim2SF] maps a float to its specification [spec_float]; the comparison
    [SFcompare] of two valid binary64 values is the comparison of the integers
    [SFkey], the value scaled by [2^1074] (infinities sit beyond every finite
    value). *)

Module F64.

Definition top : Z := 2 ^ 2200.

Definition SFkey (x : spec_float) : option Z :=
  match x with
  | S754_nan => None
  | S754_zero _ => Some 0
  | S754_infinity s => Some (cond_Zopp s top)
  | S754_finite s m e => Some (cond_Zopp s (Zpos m * 2 ^ (e + 1074)))
  end.

Definition key (x : float) : option Z := SFkey (Prim2SF x).

(** [lo <= x <= hi], as Python evaluates it. *)
Definition between (lo hi x : float) : Prop :=
  (lo <=? x)%float = true /\ (x <=? hi)%float = true.

(** Zeros, positive finite values and [+inf]: what [0 <= x] accepts. *)
Definition nonneg_shape (x : spec_float) : bool :=
  match x with
  | S754_zero _ => true
  | S754_infinity s => negb s
  | S754_nan => false
  | S754_finite s _ _ => negb s
  end.

End F64.

(** ** The Python operations the two modules use *)

Module Py.

(** [int] to [float]: exact below [2^53], the range of every integer the
    modules convert. *)
Definition of_Z (n : Z) : float :=
  match n with
  | Z0 => 0%float
  | Zpos _ => PrimFloat.of_uint63 (Uint63.of_Z n)
  | Zneg p => (- PrimFloat.of_uint63 (Uint63.of_Z (Zpos p)))%float
  end.

(** [a / b] on two [int]s: the binary64 quotient of the operands. *)
Definition truediv (a b : Z) : float := (of_Z a / of_Z b)%float.

(** The builtins [min(a, b)] and [max(a, b)] keep the first argument unless
    the second compares strictly below (above) it. *)
Definition min (a b : float) : float := if (b <? a)%float then b else a.
Definition max (a b : float) : float := if (a <? b)%float then b else a.
Definition max3 (a b c : float) : float := max (max a b) c.

(** [m * 2^e * 10^ndigits] rounded to the nearest integer, ties to even:
    the decimal digits [round] and the [f] format keep. *)
Definition scaled_half_even (m : positive) (e : Z) (ndigits : nat) : Z :=
  let n := Zpos m * 10 ^ Z.of_nat ndigits in
  if 0 <=? e then n * 2 ^ e
  else
    let d := 2 ^ (- e) in
    let q := n / d in
    let r := n mod d in
    match 2 * r ?= d with
    | Lt => q
    | Gt => q + 1
    | Eq => if Z.even q then q else q + 1
    end.

(** [round(x, ndigits)]: the decimal nearest to the exact value of [x]
    (ties to even), read back as the nearest float.  The quotient below is
    that float as long as the scaled integer is below [2^53]. *)
Definition round (x : float) (ndigits : nat) : float :=
  match Prim2SF x with
  | S754_finite s m e =>
      let r := (of_Z (scaled_half_even m e ndigits) / of_Z (10 ^ Z.of_nat ndigits))%float in
      if s then (- r)%float else r
  | _ => x
  end.

(** The quotients [round] returns for the scaled integers [0 .. 10^ndigits]
    all lie in [[0, 1]]: a finite table, checked by evaluation. *)
Definition unit_table (ndigits : nat) : bool :=
  forallb
    (fun i =>
       let r := (of_Z (Z.of_nat i) / of_Z (10 ^ Z.of_nat ndigits))%float in
       (0 <=? r)%float && (r <=? 1)%float)
    (seq 0 (S (Z.to_nat (10 ^ Z.of_nat ndigits)))).

(** [str(n)] for an [int]. *)
Definition str_int (n : Z) : string := NilZero.string_of_int (Z.to_int n).

(** [s.zfill(width)]: zeros on the left, up to [width] characters. *)
Definition zfill (width : nat) (s : string) : string :=
  (string_of_list_ascii (repeat "0"%char (width - String.length s)) ++ s)%string.

Definition fixed_digits (n : Z) (ndigits : nat) : string :=
  match ndigits with
  | O => str_int n
  | S _ =>
      let p := 10 ^ Z.of_nat ndigits in
      (str_int (n / p) ++ "." ++ zfill ndigits (str_int (n mod p)))%string
  end.

(** [format(x, ".<ndigits>f")], as in [f"{x:.1f}"]. *)
Definition format_f (x : float) (ndigits : nat) : string :=
  match Prim2SF x with
  | S754_nan => "nan"%string
  | S754_infinity s => if s then "-inf"%string else "inf"%string
  | S754_zero s => ((if s then "-" else "") ++ fixed_digits 0 ndigits)%string
  | S754_finite s m e =>
      ((if s then "-" else "") ++ fixed_digits (scaled_half_even m e ndigits) ndigits)%string
  end.

(** [k in s] on strings. *)
Fixpoint contains (k s : string) : bool :=
  String.prefix k s ||
  match s with
  | EmptyString => false
  | String _ s' => contains k s'
  end.

Definition lower_ascii (c : ascii) : ascii :=
  let n := N_of_ascii c in
  if ((65 <=? n) && (n <=? 90))%N then ascii_of_N (n + 32) else c.

(** Lowering of the ASCII letters: what [str.lower] does on ASCII text.
    The detectors take [str.lower] itself as a parameter ([str_lower]
    below); this function stands for it on the sample values, which are
    ASCII. *)
Fixpoint ascii_lower (s : string) : string :=
  match s with
  | EmptyString => EmptyString
  | String c s' => String (lower_ascii c) (ascii_lower s')
  end.

(** [l.append(x)] *)
Definition append {A : Type} (l : list A) (x : A) : list A := l ++ [x].

(** [len(x)] *)
Definition len {A : Type} (l : list A) : Z := Z.of_nat (List.length l).

(** Truth value of a sequence or mapping: non-empty. *)
Definition truthy {A : Type} (l : list A) : bool :=
  match l with [] => false | _ :: _ => true end.

(** [d[k] = v] on a [dict] kept in insertion order. *)
Fixpoint dict_set {V : Type} (d : list (string * V)) (k : string) (v : V) : list (string * V) :=
  match d with
  | [] => [(k, v)]
  | (k', v') :: d' => if String.eqb k' k then (k, v) :: d' else (k', v') :: dict_set d' k v
  end.

End Py.

(** ** Exceptions *)

(** An exception is an [ImageValidationError] (declared by the v0.6 module)
    or any other [Exception]; both carry the text [str(e)]. *)
Inductive exn : Type :=
| Exception (msg : string)
| ImageValidationError (msg : string).

Definition str_exn (e : exn) : string :=
  match e with
  | Exception msg => msg
  | ImageValidationError msg => msg
  end.

Definition isinstance_ImageValidationError (e : exn) : bool :=
  match e with
  | ImageValidationError _ => true
  | Exception _ => false
  end.

Inductive Exc (A : Type) : Type :=
| Return (a : A)
| Raise (e : exn).
Arguments Return {A} a.
Arguments Raise {A} e.

Definition bind {A B : Type} (c : Exc A) (k : A -> Exc B) : Exc B :=
  match c with
  | Return a => k a
  | Raise e => Raise e
  end.

Notation "x <- c ;; k" := (bind c (fun x => k))
  (at level 61, c at next level, right associativity).
Notation "' p <- c ;; k" := (bind c (fun x => let p := x in k))
  (at level 61, p pattern, c at next level, right associativity).

(** ** Pillow and NumPy

    A decoded image answers the queries the heuristics make; each answer is
    a value or an exception.  EXIF data is the sequence [exif.items()] of tag
    ids with [str(value)]. *)

Definition Exif : Type := list (Z * string).

Record Image : Type := {
  (** [img.size], as [(width, height)] *)
  size : Z * Z;
  (** [img.getexif()] *)
  getexif : Exc Exif;
  (** [(np.array(img.convert("L")) > 240).mean()] *)
  white_ratio : Exc float;
  (** [np.percentile(np.array(img.convert("L")), 10)] *)
  luma_percentile_10 : Exc float;
  (** [ImageStat.Stat(img.filter(ImageFilter.FIND_EDGES)).mean[0]] *)
  edge_mean : Exc float;
  (** [ImageStat.Stat(img.convert("L")).var[0]] *)
  luma_var : Exc float;
  (** [ImageStat.Stat(img).stddev], the three channels *)
  stddev : Exc (float * float * float);
  (** [ImageStat.Stat(img.resize((128, 128)).filter(FIND_EDGES)).mean[0]] *)
  edge_mean_128 : Exc float;
  (** [(a.std(), a.mean())] for
      [a = np.array(img.resize((256, 256), LANCZOS).filter(FIND_EDGES).convert("L"))] *)
  edge_std_mean_256 : Exc (float * float);
}.

(** What [Image.open] returns before conversion. *)
Record OpenedImage : Type := {
  opened_size : Z * Z;
  convert_RGB : Exc Image;
}.

(** ** image_detector.py (v0.5) *)

Module V05.

Local Open Scope string_scope.
Local Open Scope float_scope.

Record Result : Type := {
  is_ai_probability : float;
  warnings : list string;
  dimensions : Z * Z;
}.

Section Detector.

(** [ExifTags.TAGS], Pillow's table from tag id to tag name. *)
Variable TAGS : Z -> option string.
(** [str.lower], Python's Unicode-aware lowering of a string. *)
Variable str_lower : string -> string.
(** [Image.open(io.BytesIO(data))] *)
Variable Image_open : list byte -> Exc OpenedImage.

(** [ExifTags.TAGS.get(tag, tag) == name]: an id outside the table is
    compared as an [int] and differs from every name. *)
Definition tag_is (tag : Z) (name : string) : bool :=
  match TAGS tag with
  | Some n => String.eqb n name
  | None => false
  end.

(** The decoder's exception is logged and raised again. *)
Definition load_image (data : list byte) : Exc Image :=
  match (img <- Image_open data ;; convert_RGB img) with
  | Return img => Return img
  | Raise e => Raise e
  end.

Definition detect_paper_or_scan (img : Image) (warnings : list string)
  : Exc (float * list string) :=
  white_ratio <- white_ratio img ;;
  if 0.65 <? white_ratio then
    Return (-0.25, Py.append warnings "Papier/Scan erkannt – geringes KI-Risiko.")
  else Return (0.0, warnings).

Definition base_score_from_image (img : Image) (warnings : list string)
  : Exc (float * list string) :=
  let base := 0.30 in
  '(paper, warnings) <- detect_paper_or_scan img warnings ;;
  let base := base + paper in
  let '(w, h) := size img in
  let '(base, warnings) :=
    if (w =? h)%Z then
      (base + 0.20, Py.append warnings "Quadratisches Bildformat – KI-typisch.")
    else (base, warnings) in
  low_p <- luma_percentile_10 img ;;
  let '(base, warnings) :=
    if low_p <? 40 then
      (base + 0.15, Py.append warnings "Cinematic Lighting erkannt – KI-typischer Stil.")
    else (base, warnings) in
  Return (Py.max 0.05 (Py.min base 0.70), warnings).

Definition camera_makers : list string := ["canon"; "sony"; "nikon"; "fujifilm"].

(** The loop over [exif.items()]: the value of the first [Make] tag naming
    a camera maker. *)
Fixpoint find_camera (items : Exif) : option string :=
  match items with
  | [] => None
  | (tag, value) :: rest =>
      if tag_is tag "Make"
         && existsb (fun k => Py.contains k (str_lower value)) camera_makers
      then Some value
      else find_camera rest
  end.

Definition exif_score (img : Image) (warnings : list string) : float * list string :=
  match getexif img with
  | Return exif =>
      if negb (Py.truthy exif) || (Py.len exif =? 0)%Z then
        (0.10, Py.append warnings "Keine EXIF-Daten gefunden – KI typisch.")
      else
        match find_camera exif with
        | Some value => (-0.30, Py.append warnings ("Echte Kamera erkannt (" ++ value ++ ")."))
        | None => (0.0, warnings)
        end
  | Raise _ => (0.05, Py.append warnings "EXIF nicht lesbar – wirkt KI-typisch.")
  end.

Definition oversharp_score (img : Image) (warnings : list string)
  : Exc (float * list string) :=
  edge_mean <- edge_mean img ;;
  if 45 <? edge_mean then
    Return (0.30, Py.append warnings "Übermäßig scharfe Konturen – KI-Oversharpening.")
  else Return (0.0, warnings).

Definition smoothness_score (img : Image) (warnings : list string)
  : Exc (float * list string) :=
  var <- luma_var img ;;
  if var <? 260 then
    Return (0.25, Py.append warnings "Sehr glatte Haut- / Bildtexturen – KI-Glättung.")
  else if (260 <=? var) && (var <=? 500) then
    Return (0.15, Py.append warnings "Gleichmäßiges Rauschmuster – KI-Rauschsimulation möglich.")
  else Return (0.0, warnings).

Definition color_score (img : Image) (warnings : list string)
  : Exc (float * list string) :=
  '(std_r, std_g, std_b) <- stddev img ;;
  let saturation := (std_r + std_g + std_b) / 3 in
  if 55 <? saturation then
    Return (0.20, Py.append warnings "Starke Farbsättigung – KI-Farbprofil.")
  else if (abs (std_r - std_g) <? 6) && (abs (std_g - std_b) <? 6) then
    Return (0.15, Py.append warnings "Unnatürlich gleichmäßige Farbharmonie – KI-Hinweis.")
  else Return (0.0, warnings).

(** Any failure of the resize or the filter is swallowed. *)
Definition weird_hand_score (img : Image) (warnings : list string) : float * list string :=
  match edge_mean_128 img with
  | Return mean_edges =>
      if 45 <? mean_edges then
        (0.20, Py.append warnings "Stark segmentierte Konturen – KI-Artefakte möglich.")
      else (0.0, warnings)
  | Raise _ => (0.0, warnings)
  end.

Definition typical_widths : list Z := [512; 768; 1024; 1536; 2048]%Z.

Definition resolution_score (img : Image) (warnings : list string) : float * list string :=
  let '(w, h) := size img in
  let score := 0.0 in
  let '(score, warnings) :=
    if existsb (Z.eqb w) typical_widths then
      (score + 0.20, Py.append warnings "Typische KI-Auflösungsgröße erkannt.")
    else (score, warnings) in
  let '(score, warnings) :=
    if (w * h <? 200000)%Z then
      (score - 0.15, Py.append warnings "Geringe Auflösung – wirkt wie Scan/Echtbild.")
    else (score, warnings) in
  (score, warnings).

Definition analyze_image (data : list byte) : Exc Result :=
  img <- load_image data ;;
  let warnings := [] in
  '(score, warnings) <- base_score_from_image img warnings ;;
  let '(s, warnings) := exif_score img warnings in
  let score := score + s in
  '(s, warnings) <- smoothness_score img warnings ;;
  let score := score + s in
  '(s, warnings) <- oversharp_score img warnings ;;
  let score := score + s in
  '(s, warnings) <- color_score img warnings ;;
  let score := score + s in
  let '(s, warnings) := resolution_score img warnings in
  let score := score + s in
  let '(s, warnings) := weird_hand_score img warnings in
  let score := score + s in
  let score := Py.max 0.0 (Py.min score 1.0) in
  let score := Py.round score 2 in
  Return {| is_ai_probability := score;
            warnings := warnings;
            dimensions := size img |}.

End Detector.

End V05.

(** ** image_detector_enhanced.py (v0.6) *)

Module V06.

Local Open Scope string_scope.
Local Open Scope float_scope.

(** *** Configuration *)

Inductive DetectionLevel : Type :=
| OBVIOUS_AI
| SUSPICIOUS
| UNCERTAIN
| LIKELY_REAL.

Definition value (level : DetectionLevel) : string :=
  match level with
  | OBVIOUS_AI => "obvious_ai"
  | SUSPICIOUS => "suspicious"
  | UNCERTAIN => "uncertain"
  | LIKELY_REAL => "likely_real"
  end.

Record HeuristicConfig : Type := {
  max_file_size_mb : Z;
  max_dimension : Z;
  min_dimension : Z;
  extreme_sharpness_threshold : float;
  extreme_smoothness_threshold : float;
  known_ai_resolutions : list (Z * Z);
}.

(** [CONFIG = HeuristicConfig()]: the defaults, with the resolution list
    [__post_init__] fills in. *)
Definition CONFIG : HeuristicConfig := {|
  max_file_size_mb := 20;
  max_dimension := 8192;
  min_dimension := 32;
  extreme_sharpness_threshold := 70.0;
  extreme_smoothness_threshold := 150.0;
  known_ai_resolutions :=
    [(512, 512); (768, 768); (1024, 1024);
     (512, 768); (768, 512);
     (1024, 1536); (1536, 1024)]%Z;
|}.

(** *** Results *)

Record CheckEntry : Type := {
  entry_score : float;
  entry_flags : list string;
}.

Record Prefilter : Type := {
  prefilter_score : float;
  detection_level : string;
  needs_ml_verification : bool;
  flags : list string;
  scores_breakdown : list (string * CheckEntry);
}.

Record Success : Type := {
  image_hash : string;
  dimensions : Z * Z;
  file_size_kb : float;
  heuristic_results : Prefilter;
  ml_required : bool;
  recommendation : string;
}.

(** The [dict] [analyze_image] returns: ["status"] is ["success"] or
    ["error"]. *)
Inductive Response : Type :=
| StatusSuccess (r : Success)
| StatusError (error_type : string) (error_message : string).

Section Detector.

(** [ExifTags.TAGS], Pillow's table from tag id to tag name. *)
Variable TAGS : Z -> option string.
(** [str.lower], Python's Unicode-aware lowering of a string. *)
Variable str_lower : string -> string.
(** [Image.open(io.BytesIO(data))] *)
Variable Image_open : list byte -> Exc OpenedImage.
(** [hashlib.sha256(data).hexdigest()] *)
Variable sha256_hexdigest : list byte -> string.

(** *** Validation *)

(** The [try] block of [validate_image_data]: the image is opened and its
    dimensions are checked; an [ImageValidationError] passes through the
    handler, any other exception becomes one. *)
Definition validate_opened_image (data : list byte) : Exc unit :=
  let attempt :=
    img <- Image_open data ;;
    let '(w, h) := opened_size img in
    if ((max_dimension CONFIG <? w) || (max_dimension CONFIG <? h))%Z then
      Raise (ImageValidationError
               ("Dimensions too large: " ++ Py.str_int w ++ "x" ++ Py.str_int h
                ++ " (max: " ++ Py.str_int (max_dimension CONFIG) ++ ")"))
    else if ((w <? min_dimension CONFIG) || (h <? min_dimension CONFIG))%Z then
      Raise (ImageValidationError
               ("Dimensions too small: " ++ Py.str_int w ++ "x" ++ Py.str_int h
                ++ " (min: " ++ Py.str_int (min_dimension CONFIG) ++ ")"))
    else Return tt in
  match attempt with
  | Return u => Return u
  | Raise e =>
      if isinstance_ImageValidationError e then Raise e
      else Raise (ImageValidationError ("Invalid image format: " ++ str_exn e))
  end.

(** [size_mb > CONFIG.max_file_size_mb]: the size in megabytes is compared
    with the [int] limit as a float; the two agree for limits below [2^53]. *)
Definition size_exceeds_limit (data : list byte) : bool :=
  Py.of_Z (max_file_size_mb CONFIG) <? Py.truediv (Py.len data) (1024 * 1024).

Definition validate_image_data (data : list byte) : Exc unit :=
  if negb (Py.truthy data) then Raise (ImageValidationError "Empty image data")
  else
    let size_mb := Py.truediv (Py.len data) (1024 * 1024) in
    if size_exceeds_limit data then
      Raise (ImageValidationError
               ("Image too large: " ++ Py.format_f size_mb 1 ++ "MB (max: "
                ++ Py.str_int (max_file_size_mb CONFIG) ++ "MB)"))
    else validate_opened_image data.

Definition load_image (data : list byte) : Exc Image :=
  match (img <- Image_open data ;; convert_RGB img) with
  | Return img => Return img
  | Raise e => Raise (ImageValidationError ("Failed to load image: " ++ str_exn e))
  end.

(** *** Conservative heuristics *)

Definition check_obvious_ai_artifacts (img : Image) : float * list string :=
  let score := 0.0 in
  let flags := [] in
  let '(score, flags) :=
    match edge_mean img with
    | Return edge_mean =>
        if extreme_sharpness_threshold CONFIG <? edge_mean then
          (score + 0.30,
           Py.append flags ("Extreme sharpening detected (edge_mean="
                            ++ Py.format_f edge_mean 1 ++ ")"))
        else (score, flags)
    | Raise e => (score, Py.append flags ("Edge detection failed: " ++ str_exn e))
    end in
  let '(score, flags) :=
    match luma_var img with
    | Return variance =>
        if variance <? extreme_smoothness_threshold CONFIG then
          (score + 0.25,
           Py.append flags ("Extreme smoothness detected (variance="
                            ++ Py.format_f variance 1 ++ ")"))
        else (score, flags)
    | Raise e => (score, Py.append flags ("Smoothness check failed: " ++ str_exn e))
    end in
  let '(score, flags) :=
    match edge_std_mean_256 img with
    | Return (edge_std, edge_mean) =>
        if (edge_std <? 10) && (50 <? edge_mean) then
          (score + 0.20,
           Py.append flags "Regular pattern detected (possible AI grid artifacts)")
        else (score, flags)
    | Raise e => (score, Py.append flags ("Geometry check failed: " ++ str_exn e))
    end in
  (Py.min score 1.0, flags).

Definition tag_name_in (tag : Z) (names : list string) : bool :=
  match TAGS tag with
  | Some n => existsb (String.eqb n) names
  | None => false
  end.

Definition ai_markers : list string :=
  ["midjourney"; "dalle"; "stable diffusion"; "stablediffusion";
   "dreamstudio"; "leonardo"; "firefly"].

(** [software_tags]: the lowered values of the Software,
    ProcessingSoftware and Model tags, in EXIF order. *)
Fixpoint software_tags (items : Exif) : list string :=
  match items with
  | [] => []
  | (tag, value) :: rest =>
      if tag_name_in tag ["Software"; "ProcessingSoftware"; "Model"]
      then str_lower value :: software_tags rest
      else software_tags rest
  end.

(** The inner loop stops at the first marker a tag value contains. *)
Definition scan_tag (acc : float * list string) (tag_value : string) : float * list string :=
  let '(score, flags) := acc in
  match find (fun marker => Py.contains marker tag_value) ai_markers with
  | Some marker =>
      (score + 0.50, Py.append flags ("AI software detected in metadata: " ++ marker))
  | None => (score, flags)
  end.

(** EXIF errors are not suspicious: the check skips them silently. *)
Definition check_metadata_red_flags (img : Image) : float * list string :=
  let score := 0.0 in
  let flags := [] in
  let '(score, flags) :=
    match getexif img with
    | Return exif =>
        if Py.truthy exif then fold_left scan_tag (software_tags exif) (score, flags)
        else (score, flags)
    | Raise _ => (score, flags)
    end in
  (Py.min score 1.0, flags).

Definition resolution_in (wh : Z * Z) (l : list (Z * Z)) : bool :=
  existsb (fun r => (fst r =? fst wh)%Z && (snd r =? snd wh)%Z) l.

Definition check_format_patterns (img : Image) : float * list string :=
  let score := 0.0 in
  let flags := [] in
  let '(w, h) := size img in
  if resolution_in (w, h) (known_ai_resolutions CONFIG)
     || resolution_in (h, w) (known_ai_resolutions CONFIG)
  then
    (score + 0.15,
     Py.append flags ("Exact match to common AI resolution: "
                      ++ Py.str_int w ++ "x" ++ Py.str_int h))
  else (score, flags).

Definition check_color_anomalies (img : Image) : float * list string :=
  let score := 0.0 in
  let flags := [] in
  match stddev img with
  | Return (std_r, std_g, std_b) =>
      let max_diff := Py.max3 (abs (std_r - std_g)) (abs (std_g - std_b)) (abs (std_r - std_b)) in
      let '(score, flags) :=
        if max_diff <? 3.0 then
          (score + 0.15,
           Py.append flags ("Extreme color uniformity detected (max_diff="
                            ++ Py.format_f max_diff 2 ++ ")"))
        else (score, flags) in
      let avg_std := (std_r + std_g + std_b) / 3 in
      let '(score, flags) :=
        if 70 <? avg_std then
          (score + 0.15,
           Py.append flags ("Extreme color saturation detected (avg_std="
                            ++ Py.format_f avg_std 1 ++ ")"))
        else (score, flags) in
      (score, flags)
  | Raise e => (score, Py.append flags ("Color analysis failed: " ++ str_exn e))
  end.

(** *** The pre-filter *)

Definition CheckFunc : Type := Image -> Exc (float * list string).

Record LoopState : Type := {
  total_score : float;
  all_flags : list string;
  breakdown : list (string * CheckEntry);
}.

(** One turn of the loop over [checks]: a check that raises is recorded
    with score [0.0] and leaves the total as it was. *)
Definition run_check (img : Image) (st : LoopState) (check : string * CheckFunc) : LoopState :=
  let '(check_name, check_func) := check in
  match check_func img with
  | Return (score, flags) =>
      {| total_score := total_score st + score;
         all_flags := (all_flags st ++ flags)%list;
         breakdown := Py.dict_set (breakdown st) check_name
                        {| entry_score := Py.round score 3; entry_flags := flags |} |}
  | Raise e =>
      {| total_score := total_score st;
         all_flags := Py.append (all_flags st) (check_name ++ " check failed: " ++ str_exn e);
         breakdown := Py.dict_set (breakdown st) check_name
                        {| entry_score := 0.0;
                           entry_flags := ["Check failed: " ++ str_exn e] |} |}
  end.

Definition run_checks (img : Image) (checks : list (string * CheckFunc)) : LoopState :=
  fold_left (run_check img) checks
    {| total_score := 0.0; all_flags := []; breakdown := [] |}.

Definition checks : list (string * CheckFunc) :=
  [("artifacts", fun img => Return (check_obvious_ai_artifacts img));
   ("metadata", fun img => Return (check_metadata_red_flags img));
   ("format", fun img => Return (check_format_patterns img));
   ("color", fun img => Return (check_color_anomalies img))].

(** The [if]/[elif] ladder on the clamped total. *)
Definition determine_level (total_score : float) : DetectionLevel * bool :=
  if 0.70 <=? total_score then (OBVIOUS_AI, false)
  else if 0.40 <=? total_score then (SUSPICIOUS, true)
  else if 0.20 <=? total_score then (UNCERTAIN, true)
  else (LIKELY_REAL, false).

Definition summarize (st : LoopState) : Prefilter :=
  let total_score := Py.max 0.0 (Py.min (total_score st) 1.0) in
  let '(level, needs_ml) := determine_level total_score in
  {| prefilter_score := Py.round total_score 3;
     detection_level := value level;
     needs_ml_verification := needs_ml;
     flags := all_flags st;
     scores_breakdown := breakdown st |}.

Definition prefilter_heuristics (img : Image) : Prefilter :=
  summarize (run_checks img checks).

Definition _get_recommendation (heuristic_results : Prefilter) : string :=
  let level := detection_level heuristic_results in
  if String.eqb level (value OBVIOUS_AI) then
    "High confidence AI detection - multiple obvious artifacts found"
  else if String.eqb level (value SUSPICIOUS) then
    "Suspicious patterns detected - ML verification recommended"
  else if String.eqb level (value UNCERTAIN) then
    "Inconclusive - ML analysis required for accurate detection"
  else "No obvious AI artifacts detected - likely authentic photo".

Definition analyze_image (data : list byte) : Response :=
  let body :=
    _ <- validate_image_data data ;;
    img <- load_image data ;;
    let '(w, h) := size img in
    let img_hash := substring 0 16 (sha256_hexdigest data) in
    let heuristic_results := prefilter_heuristics img in
    Return {| image_hash := img_hash;
              dimensions := (w, h);
              file_size_kb := Py.round (Py.truediv (Py.len data) 1024) 2;
              heuristic_results := heuristic_results;
              ml_required := needs_ml_verification heuristic_results;
              recommendation := _get_recommendation heuristic_results |} in
  match body with
  | Return result => StatusSuccess result
  | Raise (ImageValidationError msg) => StatusError "validation_error" msg
  | Raise (Exception msg) => StatusError "processing_error" msg
  end.

End Detector.

End V06.

(** ** Images and decoders used to exercise the pipelines *)

Module Samples.

Local Open Scope string_scope.
Local Open Scope float_scope.

(** Pillow's ids of the tags the modules look at. *)
Definition TAGS (tag : Z) : option string :=
  if (tag =? 271)%Z then Some "Make"
  else if (tag =? 272)%Z then Some "Model"
  else if (tag =? 305)%Z then Some "Software"
  else if (tag =? 11)%Z then Some "ProcessingSoftware"
  else None.

Definition sha256_hexdigest (data : list byte) : string :=
  "e3b0c44298fc1c149afbf4c8996fb92427ae41e4649b934ca495991b7852b855".

(** The self-test image: 512 x 512, uniform gray, no EXIF. *)
Definition gray_512 : Image := {|
  size := (512, 512)%Z;
  getexif := Return [];
  white_ratio := Return 0;
  luma_percentile_10 := Return 128;
  edge_mean := Return 0;
  luma_var := Return 0;
  stddev := Return (0, 0, 0);
  edge_mean_128 := Return 0;
  edge_std_mean_256 := Return (0, 0);
|}.

(** A 1920 x 1080 photograph with textured content and the given EXIF. *)
Definition photo (exif : Exc Exif) : Image := {|
  size := (1920, 1080)%Z;
  getexif := exif;
  white_ratio := Return 0.1;
  luma_percentile_10 := Return 60;
  edge_mean := Return 10;
  luma_var := Return 1000;
  stddev := Return (40, 50, 60);
  edge_mean_128 := Return 10;
  edge_std_mean_256 := Return (20, 10);
|}.

(** A scan: mostly white paper. *)
Definition scan : Image := {|
  size := (1240, 1754)%Z;
  getexif := Return [(305, "ScanSoft")%Z];
  white_ratio := Return 0.9;
  luma_percentile_10 := Return 200;
  edge_mean := Return 5;
  luma_var := Return 900;
  stddev := Return (30, 40, 50);
  edge_mean_128 := Return 5;
  edge_std_mean_256 := Return (20, 5);
|}.

(** 512 pixels wide, 1000 high: one side of a generator format only. *)
Definition tall_512 : Image := {|
  size := (512, 1000)%Z;
  getexif := Return [(305, "GIMP")%Z];
  white_ratio := Return 0.1;
  luma_percentile_10 := Return 60;
  edge_mean := Return 10;
  luma_var := Return 1000;
  stddev := Return (40, 50, 60);
  edge_mean_128 := Return 10;
  edge_std_mean_256 := Return (20, 10);
|}.

(** The photograph with a failing edge filter. *)
Definition broken_filter : Image := {|
  size := (1920, 1080)%Z;
  getexif := Return [(305, "GIMP")%Z];
  white_ratio := Return 0.1;
  luma_percentile_10 := Return 60;
  edge_mean := Raise (Exception "filter failed");
  luma_var := Return 1000;
  stddev := Return (40, 50, 60);
  edge_mean_128 := Return 10;
  edge_std_mean_256 := Return (20, 10);
|}.

Definition decode_as (img : Image) (data : list byte) : Exc OpenedImage :=
  match data with
  | [] => Raise (Exception "cannot identify image file")
  | _ :: _ => Return {| opened_size := size img; convert_RGB := Return img |}
  end.

Definition decode_with_size (wh : Z * Z) (data : list byte) : Exc OpenedImage :=
  Return {| opened_size := wh; convert_RGB := Return gray_512 |}.

Definition one_byte : list byte := ["x"%byte].

(** [b"x" * n] *)
Definition buffer (n : Z) : list byte := repeat "x"%byte (Z.to_nat n).

End Samples.

(** ** An image with one query answered differently *)

Definition with_edge_mean (img : Image) (v : Exc float) : Image := {|
  size := size img;
  getexif := getexif img;
  white_ratio := white_ratio img;
  luma_percentile_10 := luma_percentile_10 img;
  edge_mean := v;
  luma_var := luma_var img;
  stddev := stddev img;
  edge_mean_128 := edge_mean_128 img;
  edge_std_mean_256 := edge_std_mean_256 img;
|}.

Definition with_luma_var (img : Image) (v : Exc float) : Image := {|
  size := size img;
  getexif := getexif img;
  white_ratio := white_ratio img;
  luma_percentile_10 := luma_percentile_10 img;
  edge_mean := edge_mean img;
  luma_var := v;
  stddev := stddev img;
  edge_mean_128 := edge_mean_128 img;
  edge_std_mean_256 := edge_std_mean_256 img;
|}.

Definition with_edge_std_mean_256 (img : Image) (v : Exc (float * float)) : Image := {|
  size := size img;
  getexif := getexif img;
  white_ratio := white_ratio img;
  luma_percentile_10 := luma_percentile_10 img;
  edge_mean := edge_mean img;
  luma_var := luma_var img;
  stddev := stddev img;
  edge_mean_128 := edge_mean_128 img;
  edge_std_mean_256 := v;
|}.

(** * Properties *)

(** ** Binary64 ordering through integer keys *)

Module F64Facts.

Import F64.

Lemma digits2_pos_bounds (m : positive) :
  2 ^ (Zpos (digits2_pos m) - 1) <= Zpos m < 2 ^ Zpos (digits2_pos m).
Proof.
  induction m as [m IH | m IH | ]; cbn [digits2_pos].
  - rewrite Pos2Z.inj_succ. change (Zpos m~1) with (2 * Zpos m + 1).
    replace (Z.succ (Zpos (digits2_pos m)) - 1) with (Z.succ (Zpos (digits2_pos m) - 1)) by lia.
    rewrite (Z.pow_succ_r 2 (Zpos (digits2_pos m) - 1)) by lia.
    rewrite (Z.pow_succ_r 2 (Zpos (digits2_pos m))) by lia. lia.
  - rewrite Pos2Z.inj_succ. change (Zpos m~0) with (2 * Zpos m).
    replace (Z.succ (Zpos (digits2_pos m)) - 1) with (Z.succ (Zpos (digits2_pos m) - 1)) by lia.
    rewrite (Z.pow_succ_r 2 (Zpos (digits2_pos m) - 1)) by lia.
    rewrite (Z.pow_succ_r 2 (Zpos (digits2_pos m))) by lia. lia.
  - cbn. lia.
Qed.

Lemma valid_finite_bounds (s : bool) (m : positive) (e : Z) :
  valid_binary (S754_finite s m e) = true ->
  -1074 <= e <= 971 /\ Zpos m < 2 ^ 53 /\ (-1074 < e -> 2 ^ 52 <= Zpos m).
Proof.
  unfold valid_binary, SpecFloat.valid_binary, bounded, canonical_mantissa, fexp, SpecFloat.emin.
  change prec with 53. change emax with 1024.
  intros H. apply andb_prop in H. destruct H as [Hc He].
  apply Z.eqb_eq in Hc. apply Z.leb_le in He.
  pose proof (digits2_pos_bounds m) as [Hlo Hhi].
  set (d := Zpos (digits2_pos m)) in *.
  assert (Hd : 0 < d) by (unfold d; lia).
  assert (Hd53 : d <= 53) by lia.
  split; [lia|]. split.
  - eapply Z.lt_le_trans; [exact Hhi|]. apply Z.pow_le_mono_r; lia.
  - intros Hn. assert (d = 53) by lia.
    replace (d - 1) with 52 in Hlo by lia. exact Hlo.
Qed.

Lemma finite_scaled_lt (m1 m2 : positive) (e1 e2 : Z) :
  valid_binary (S754_finite false m1 e1) = true ->
  valid_binary (S754_finite false m2 e2) = true ->
  e1 < e2 ->
  Zpos m1 * 2 ^ (e1 + 1074) < Zpos m2 * 2 ^ (e2 + 1074).
Proof.
  intros V1 V2 Hlt.
  apply valid_finite_bounds in V1. apply valid_finite_bounds in V2.
  destruct V1 as [Be1 [Bm1 _]]. destruct V2 as [Be2 [_ Bm2]].
  specialize (Bm2 ltac:(lia)).
  assert (P1 : 0 < 2 ^ (e1 + 1074)) by (apply Z.pow_pos_nonneg; lia).
  replace (e2 + 1074) with ((e1 + 1074) + (e2 - e1)) by lia.
  rewrite (Z.pow_add_r 2 (e1 + 1074) (e2 - e1)) by lia.
  assert (P2 : 2 ^ 1 <= 2 ^ (e2 - e1)) by (apply Z.pow_le_mono_r; lia).
  change (2 ^ 1) with 2 in P2.
  change (2 ^ 53) with 9007199254740992 in Bm1.
  change (2 ^ 52) with 4503599627370496 in Bm2.
  set (A := 2 ^ (e1 + 1074)) in *. set (B := 2 ^ (e2 - e1)) in *.
  assert (S1 : Zpos m1 * A < 9007199254740992 * A)
    by (apply Z.mul_lt_mono_pos_r; lia).
  assert (S2 : 9007199254740992 <= Zpos m2 * B) by nia.
  assert (S3 : 9007199254740992 * A <= (Zpos m2 * B) * A)
    by (apply Z.mul_le_mono_nonneg_r; lia).
  lia.
Qed.

Lemma finite_scaled_bounds (s : bool) (m : positive) (e : Z) :
  valid_binary (S754_finite s m e) = true ->
  0 < Zpos m * 2 ^ (e + 1074) < top.
Proof.
  intros V. apply valid_finite_bounds in V. destruct V as [Be [Bm _]].
  assert (P1 : 0 < 2 ^ (e + 1074)) by (apply Z.pow_pos_nonneg; lia).
  split; [lia|].
  assert (P2 : 2 ^ (e + 1074) <= 2 ^ 2045) by (apply Z.pow_le_mono_r; lia).
  unfold top. replace 2200 with (53 + 2147) by lia.
  rewrite (Z.pow_add_r 2 53 2147) by lia.
  assert (P3 : 2 ^ 2045 < 2 ^ 2147) by (apply Z.pow_lt_mono_r; lia).
  set (A := 2 ^ (e + 1074)) in *.
  assert (S1 : Zpos m * A < 2 ^ 53 * A) by (apply Z.mul_lt_mono_pos_r; lia).
  assert (S2 : 2 ^ 53 * A <= 2 ^ 53 * 2 ^ 2147)
    by (apply Z.mul_le_mono_nonneg_l; lia).
  lia.
Qed.

Local Ltac decide_compare :=
  f_equal; symmetry;
  first [ apply Z.compare_eq_iff; lia
        | apply Z.compare_lt_iff; lia
        | apply Z.compare_gt_iff; lia ].

Lemma SFcompare_key (x y : spec_float) :
  valid_binary x = true -> valid_binary y = true ->
  SFcompare x y =
  match SFkey x, SFkey y with
  | Some a, Some b => Some (a ?= b)
  | _, _ => None
  end.
Proof.
  intros Vx Vy.
  assert (T : 0 < top) by (unfold top; apply Z.pow_pos_nonneg; lia).
  destruct x as [sx | sx | | sx mx ex], y as [sy | sy | | sy my ey];
    cbn [SFcompare SFkey]; try reflexivity.
  - destruct sy; cbn [cond_Zopp]; decide_compare.
  - pose proof (finite_scaled_bounds _ _ _ Vy).
    destruct sy; cbn [cond_Zopp]; decide_compare.
  - destruct sx; cbn [cond_Zopp]; decide_compare.
  - destruct sx, sy; cbn [cond_Zopp]; decide_compare.
  - pose proof (finite_scaled_bounds _ _ _ Vy).
    destruct sx, sy; cbn [cond_Zopp]; decide_compare.
  - pose proof (finite_scaled_bounds _ _ _ Vx).
    destruct sx; cbn [cond_Zopp]; decide_compare.
  - pose proof (finite_scaled_bounds _ _ _ Vx).
    destruct sy, sx; cbn [cond_Zopp]; decide_compare.
  - pose proof (finite_scaled_bounds _ _ _ Vx) as Bx.
    pose proof (finite_scaled_bounds _ _ _ Vy) as By.
    assert (Vx' : valid_binary (S754_finite false mx ex) = true) by exact Vx.
    assert (Vy' : valid_binary (S754_finite false my ey) = true) by exact Vy.
    destruct sx, sy; cbn [cond_Zopp]; try decide_compare.
    + destruct (Z.compare_spec ex ey) as [E | L | G].
      * subst ey. rewrite Pos.compare_cont_spec. cbn [Pos.switch_Eq].
        assert (P : 0 < 2 ^ (ex + 1074)) by lia.
        destruct (Pos.compare_spec mx my) as [E | L | G]; cbn [CompOpp].
        -- subst my. decide_compare.
        -- f_equal; symmetry; apply Z.compare_gt_iff.
           assert (Zpos mx * 2 ^ (ex + 1074) < Zpos my * 2 ^ (ex + 1074))
             by (apply Z.mul_lt_mono_pos_r; lia). lia.
        -- f_equal; symmetry; apply Z.compare_lt_iff.
           assert (Zpos my * 2 ^ (ex + 1074) < Zpos mx * 2 ^ (ex + 1074))
             by (apply Z.mul_lt_mono_pos_r; lia). lia.
      * pose proof (finite_scaled_lt _ _ _ _ Vx' Vy' L). decide_compare.
      * pose proof (finite_scaled_lt _ _ _ _ Vy' Vx' ltac:(lia)). decide_compare.
    + destruct (Z.compare_spec ex ey) as [E | L | G].
      * subst ey. rewrite Pos.compare_cont_spec. cbn [Pos.switch_Eq].
        assert (P : 0 < 2 ^ (ex + 1074)) by lia.
        destruct (Pos.compare_spec mx my) as [E | L | G].
        -- subst my. decide_compare.
        -- f_equal; symmetry; apply Z.compare_lt_iff.
           apply Z.mul_lt_mono_pos_r; lia.
        -- f_equal; symmetry; apply Z.compare_gt_iff.
           apply Z.mul_lt_mono_pos_r; lia.
      * pose proof (finite_scaled_lt _ _ _ _ Vx' Vy' L). decide_compare.
      * pose proof (finite_scaled_lt _ _ _ _ Vy' Vx' ltac:(lia)). decide_compare.
Qed.

Lemma ltb_key (x y : float) :
  (x <? y)%float =
  match key x, key y with
  | Some a, Some b => a <? b
  | _, _ => false
  end.
Proof.
  rewrite FloatAxioms.ltb_spec. unfold SFltb, key.
  rewrite (SFcompare_key _ _ (Prim2SF_valid x) (Prim2SF_valid y)).
  destruct (SFkey (Prim2SF x)) as [a|]; [|reflexivity].
  destruct (SFkey (Prim2SF y)) as [b|]; [|reflexivity].
  unfold Z.ltb. destruct (a ?= b); reflexivity.
Qed.

Lemma leb_key (x y : float) :
  (x <=? y)%float =
  match key x, key y with
  | Some a, Some b => a <=? b
  | _, _ => false
  end.
Proof.
  rewrite FloatAxioms.leb_spec. unfold SFleb, key.
  rewrite (SFcompare_key _ _ (Prim2SF_valid x) (Prim2SF_valid y)).
  destruct (SFkey (Prim2SF x)) as [a|]; [|reflexivity].
  destruct (SFkey (Prim2SF y)) as [b|]; [|reflexivity].
  unfold Z.leb. destruct (a ?= b); reflexivity.
Qed.

End F64Facts.

(** ** Non-negative sums, clamping and rounding *)

Module PyFacts.

Import F64 F64Facts.

(** Comparisons of floats, read through their keys, are comparisons of
    integers: [float_order] rewrites them, evaluates the keys of literals
    and leaves the rest to [lia]. *)
Ltac key_consts :=
  repeat match goal with
  | |- context [key ?c] =>
      tryif is_var c then fail else
      let v := eval vm_compute in (key c) in
      replace (key c) with v by (vm_compute; reflexivity)
  | H : context [key ?c] |- _ =>
      tryif is_var c then fail else
      let v := eval vm_compute in (key c) in
      replace (key c) with v in H by (vm_compute; reflexivity)
  end.

Ltac key_vars :=
  repeat match goal with
  | H : context [key ?x] |- _ => is_var x; destruct (key x)
  | |- context [key ?x] => is_var x; destruct (key x)
  end.

Ltac z_bools :=
  repeat match goal with
  | H : (_ <? _)%Z = true |- _ => apply Z.ltb_lt in H
  | H : (_ <? _)%Z = false |- _ => apply Z.ltb_ge in H
  | H : (_ <=? _)%Z = true |- _ => apply Z.leb_le in H
  | H : (_ <=? _)%Z = false |- _ => apply Z.leb_gt in H
  | |- (_ <? _)%Z = true => apply Z.ltb_lt
  | |- (_ <? _)%Z = false => apply Z.ltb_ge
  | |- (_ <=? _)%Z = true => apply Z.leb_le
  | |- (_ <=? _)%Z = false => apply Z.leb_gt
  end.

Ltac float_order :=
  rewrite ?ltb_key, ?leb_key in *;
  key_consts; key_vars; try discriminate; try reflexivity;
  z_bools; try lia.

(** [max(lo, min(x, hi))] lies in [[lo, hi]] for every float [x], NaN and
    the infinities included. *)
Lemma clamp_between (lo hi x : float) :
  (lo <=? hi)%float = true -> between lo hi (Py.max lo (Py.min x hi)).
Proof.
  intros Hlh. unfold between, Py.max, Py.min.
  destruct (hi <? x)%float eqn:E1; destruct (lo <? _)%float eqn:E2;
    split; float_order.
Qed.

Lemma clamp_unit (x : float) : between 0 1 (Py.max 0 (Py.min x 1)).
Proof. apply clamp_between. reflexivity. Qed.

Lemma min_one_unit (x : float) :
  (0 <=? x)%float = true -> between 0 1 (Py.min x 1).
Proof.
  intros H. unfold between, Py.min.
  destruct (1 <? x)%float eqn:E; split; float_order.
Qed.

Lemma between_weaken (lo hi lo' hi' x : float) :
  (lo' <=? lo)%float = true -> (hi <=? hi')%float = true ->
  between lo hi x -> between lo' hi' x.
Proof. unfold between. intros H1 H2 [H3 H4]. split; float_order. Qed.

(** *** Addition keeps non-negative floats non-negative *)

Lemma leb_zero_shape (x : float) :
  (0 <=? x)%float = nonneg_shape (Prim2SF x).
Proof.
  rewrite FloatAxioms.leb_spec. change (Prim2SF 0) with (S754_zero false).
  destruct (Prim2SF x) as [s | s | | s m e]; try destruct s; reflexivity.
Qed.

Lemma shr_1_nonneg (mrs : shr_record) :
  0 <= shr_m mrs -> 0 <= shr_m (shr_1 mrs).
Proof.
  destruct mrs as [m r s]. cbn [shr_m]. intros H.
  destruct m as [ | p | p ]; [ | destruct p | lia ]; cbn; lia.
Qed.

Lemma iter_pos_shr_1_nonneg (p : positive) (mrs : shr_record) :
  0 <= shr_m mrs -> 0 <= shr_m (iter_pos shr_1 p mrs).
Proof.
  revert mrs. induction p as [p IH | p IH | ]; intros mrs H; cbn [iter_pos].
  - apply IH, IH, shr_1_nonneg, H.
  - apply IH, IH, H.
  - apply shr_1_nonneg, H.
Qed.

Lemma shr_fexp_nonneg (m e : Z) (l : location) :
  0 <= m -> 0 <= shr_m (fst (shr_fexp prec emax m e l)).
Proof.
  intros H. unfold shr_fexp, shr.
  assert (H0 : 0 <= shr_m (shr_record_of_loc m l)).
  { destruct l as [ | [ | | ] ]; exact H. }
  destruct (fexp prec emax (Zdigits2 m + e) - e) as [ | p | p ]; cbn [fst];
    try exact H0.
  apply iter_pos_shr_1_nonneg, H0.
Qed.

Lemma round_nearest_even_nonneg (m : Z) (l : location) :
  0 <= m -> 0 <= round_nearest_even m l.
Proof.
  intros H. destruct l as [ | [ | | ] ]; cbn [round_nearest_even];
    try destruct (Z.even m); lia.
Qed.

Lemma binary_round_aux_nonneg (m e : Z) (l : location) :
  0 <= m -> nonneg_shape (binary_round_aux prec emax false m e l) = true.
Proof.
  intros H. unfold binary_round_aux.
  pose proof (shr_fexp_nonneg m e l H) as H1.
  destruct (shr_fexp prec emax m e l) as [mrs' e'] eqn:E1. cbn [fst] in H1.
  pose proof (round_nearest_even_nonneg (shr_m mrs') (loc_of_shr_record mrs') H1) as H2.
  pose proof (shr_fexp_nonneg _ e' loc_Exact H2) as H3.
  destruct (shr_fexp prec emax _ e' loc_Exact) as [mrs'' e''] eqn:E2. cbn [fst] in H3.
  destruct (shr_m mrs'') as [ | p | p ]; [reflexivity | | lia].
  destruct (e'' <=? emax - prec); reflexivity.
Qed.

Lemma SFadd_nonneg (x y : spec_float) :
  nonneg_shape x = true -> nonneg_shape y = true ->
  nonneg_shape (SFadd prec emax x y) = true.
Proof.
  destruct x as [sx | sx | | sx mx ex], y as [sy | sy | | sy my ey];
    cbn [nonneg_shape]; intros Hx Hy; try discriminate;
    try (destruct sx; try discriminate); try (destruct sy; try discriminate);
    try reflexivity.
  cbn [SFadd cond_Zopp].
  set (a := fst (shl_align mx ex (Z.min ex ey))).
  set (b := fst (shl_align my ey (Z.min ex ey))).
  change (Zpos a + Zpos b) with (Zpos (a + b)).
  cbn [binary_normalize]. unfold binary_round.
  destruct (shl_align (a + b) (Z.min ex ey) _) as [mz ez].
  apply binary_round_aux_nonneg. lia.
Qed.

Lemma add_nonneg (a b : float) :
  (0 <=? a)%float = true -> (0 <=? b)%float = true -> (0 <=? a + b)%float = true.
Proof.
  rewrite !leb_zero_shape, FloatAxioms.add_spec. apply SFadd_nonneg.
Qed.

(** *** [round] keeps a float of [[0, 1]] in [[0, 1]] *)

Lemma scaled_half_even_unit (m : positive) (e : Z) (nd : nat) :
  -1074 <= e ->
  Zpos m * 2 ^ (e + 1074) <= 2 ^ 1074 ->
  0 <= Py.scaled_half_even m e nd <= 10 ^ Z.of_nat nd.
Proof.
  intros He Hle. unfold Py.scaled_half_even.
  set (K := 10 ^ Z.of_nat nd).
  assert (HK : 0 < K) by (apply Z.pow_pos_nonneg; lia).
  assert (HS : 0 < 2 ^ (e + 1074)) by (apply Z.pow_pos_nonneg; lia).
  destruct (Z.leb_spec 0 e) as [Hpos | Hneg].
  - assert (HE : 0 < 2 ^ e) by (apply Z.pow_pos_nonneg; lia).
    rewrite (Z.pow_add_r 2 e 1074) in Hle by lia.
    assert (H1 : Zpos m * 2 ^ e <= 1).
    { assert (P : 0 < 2 ^ 1074) by (apply Z.pow_pos_nonneg; lia).
      apply Z.mul_le_mono_pos_r with (p := 2 ^ 1074); [exact P|]. lia. }
    split; [nia|].
    replace (Zpos m * K * 2 ^ e) with (K * (Zpos m * 2 ^ e)) by ring. nia.
  - set (d := 2 ^ (- e)).
    assert (Hd : 0 < d) by (apply Z.pow_pos_nonneg; lia).
    assert (Hmd : Zpos m <= d).
    { assert (P : 2 ^ 1074 = d * 2 ^ (e + 1074)).
      { unfold d. rewrite <- Z.pow_add_r by lia. f_equal. lia. }
      rewrite P in Hle. apply Z.mul_le_mono_pos_r in Hle; assumption. }
    pose proof (Z.div_mod (Zpos m * K) d ltac:(lia)) as Hdm.
    pose proof (Z.mod_pos_bound (Zpos m * K) d Hd) as Hr.
    set (q := Zpos m * K / d) in *. set (r := (Zpos m * K) mod d) in *.
    assert (HN : Zpos m * K <= d * K) by (apply Z.mul_le_mono_nonneg_r; lia).
    assert (Hq0 : 0 <= q) by (unfold q; apply Z.div_pos; lia).
    assert (HqK : q <= K) by nia.
    assert (HqK' : 0 < r -> q < K) by nia.
    destruct (Z.compare_spec (2 * r) d) as [E | L | G].
    + destruct (Z.even q); lia.
    + lia.
    + lia.
Qed.

Lemma unit_table_sound (nd : nat) (n : Z) :
  Py.unit_table nd = true ->
  0 <= n <= 10 ^ Z.of_nat nd ->
  between 0 1 (Py.of_Z n / Py.of_Z (10 ^ Z.of_nat nd))%float.
Proof.
  intros T Hn. unfold Py.unit_table in T. rewrite forallb_forall in T.
  specialize (T (Z.to_nat n)).
  rewrite Z2Nat.id in T by lia.
  assert (I : In (Z.to_nat n) (seq 0 (S (Z.to_nat (10 ^ Z.of_nat nd))))).
  { apply in_seq. lia. }
  apply T in I. apply andb_prop in I. exact I.
Qed.

Lemma unit_table_2 : Py.unit_table 2 = true.
Proof. vm_compute. reflexivity. Qed.

Lemma unit_table_3 : Py.unit_table 3 = true.
Proof. vm_compute. reflexivity. Qed.

Lemma key_zero : key 0 = Some 0.
Proof. reflexivity. Qed.

Lemma key_one : key 1 = Some (2 ^ 1074).
Proof. vm_compute. reflexivity. Qed.

Lemma round_unit (x : float) (nd : nat) :
  Py.unit_table nd = true ->
  between 0 1 x -> between 0 1 (Py.round x nd).
Proof.
  intros T [H0 H1]. unfold Py.round.
  pose proof (Prim2SF_valid x) as V.
  rewrite leb_key in H0, H1. rewrite key_zero in H0. rewrite key_one in H1.
  unfold key in H0, H1.
  destruct (Prim2SF x) as [s | s | | s m e] eqn:E.
  1-3: split; rewrite leb_key; [rewrite key_zero | rewrite key_one]; unfold key;
       rewrite E; assumption.
  cbn [SFkey] in H0, H1.
  pose proof (finite_scaled_bounds _ _ _ V) as B.
  pose proof (valid_finite_bounds _ _ _ V) as [Be _].
  apply Z.leb_le in H0. apply Z.leb_le in H1.
  destruct s; cbn [cond_Zopp] in H0, H1; [lia|].
  apply unit_table_sound; [exact T|].
  apply scaled_half_even_unit; lia.
Qed.

Lemma round_clamp_unit_2 (x : float) :
  between 0 1 (Py.round (Py.max 0 (Py.min x 1)) 2).
Proof. apply round_unit; [exact unit_table_2 | apply clamp_unit]. Qed.

Lemma round_clamp_unit_3 (x : float) :
  between 0 1 (Py.round (Py.max 0 (Py.min x 1)) 3).
Proof. apply round_unit; [exact unit_table_3 | apply clamp_unit]. Qed.

End PyFacts.

(** ** The claims *)

Import F64 PyFacts.

Local Open Scope string_scope.
Local Open Scope float_scope.

(** *** The pipelines on sample images *)

Example gray_512_v06 :
  V06.prefilter_heuristics Samples.TAGS Py.ascii_lower Samples.gray_512
  = {| V06.prefilter_score := 0.55;
       V06.detection_level := "suspicious";
       V06.needs_ml_verification := true;
       V06.flags :=
         ["Extreme smoothness detected (variance=0.0)";
          "Exact match to common AI resolution: 512x512";
          "Extreme color uniformity detected (max_diff=0.00)"];
       V06.scores_breakdown :=
         [("artifacts",
           {| V06.entry_score := 0.25;
              V06.entry_flags := ["Extreme smoothness detected (variance=0.0)"] |});
          ("metadata", {| V06.entry_score := 0.0; V06.entry_flags := [] |});
          ("format",
           {| V06.entry_score := 0.15;
              V06.entry_flags := ["Exact match to common AI resolution: 512x512"] |});
          ("color",
           {| V06.entry_score := 0.15;
              V06.entry_flags :=
                ["Extreme color uniformity detected (max_diff=0.00)"] |})] |}.
Proof. vm_compute. reflexivity. Qed.

Example gray_512_v05 :
  V05.analyze_image Samples.TAGS Py.ascii_lower (Samples.decode_as Samples.gray_512) Samples.one_byte
  = Return {| V05.is_ai_probability := 1.0;
              V05.warnings :=
                ["Quadratisches Bildformat – KI-typisch.";
                 "Keine EXIF-Daten gefunden – KI typisch.";
                 "Sehr glatte Haut- / Bildtexturen – KI-Glättung.";
                 "Unnatürlich gleichmäßige Farbharmonie – KI-Hinweis.";
                 "Typische KI-Auflösungsgröße erkannt."];
              V05.dimensions := (512, 512)%Z |}.
Proof. vm_compute. reflexivity. Qed.

Example canon_photo_v05 :
  V05.analyze_image Samples.TAGS Py.ascii_lower
    (Samples.decode_as (Samples.photo (Return [(271%Z, "Canon")]))) Samples.one_byte
  = Return {| V05.is_ai_probability := 0.0;
              V05.warnings := ["Echte Kamera erkannt (Canon)."];
              V05.dimensions := (1920, 1080)%Z |}.
Proof. vm_compute. reflexivity. Qed.

Example tiny_image_v06 :
  V06.analyze_image Samples.TAGS Py.ascii_lower (Samples.decode_with_size (10, 10)%Z)
    Samples.sha256_hexdigest Samples.one_byte
  = V06.StatusError "validation_error" "Dimensions too small: 10x10 (min: 32)".
Proof. vm_compute. reflexivity. Qed.

Example format_f_pads_fraction :
  Py.format_f 0.005 3 = "0.005" /\ Py.format_f 1.05 2 = "1.05" /\
  Py.format_f 20.000000953674316 1 = "20.0".
Proof. vm_compute. repeat split. Qed.

Example round_half_even_examples :
  Py.round 2.675 2 = 2.67 /\ Py.round 0.125 2 = 0.12 /\ Py.round 0.675 2 = 0.68 /\
  Py.format_f 20.000000953674316 1 = "20.0" /\ Py.format_f 0.375 2 = "0.38".
Proof. vm_compute. repeat split. Qed.

(** *** Shared facts *)

Lemma append_not_nil (A : Type) (l : list A) (x : A) : Py.append l x <> [].
Proof. unfold Py.append. destruct l; discriminate. Qed.

Lemma len_buffer (n : Z) : (0 <= n)%Z -> Py.len (Samples.buffer n) = n.
Proof.
  intros H. unfold Py.len, Samples.buffer.
  rewrite repeat_length. apply Z2Nat.id. exact H.
Qed.

Lemma resolution_in_In (wh : Z * Z) (l : list (Z * Z)) :
  V06.resolution_in wh l = true <-> In wh l.
Proof.
  unfold V06.resolution_in. rewrite existsb_exists. split.
  - intros [[a b] [HI HE]]. apply andb_prop in HE. destruct HE as [Ha Hb].
    apply Z.eqb_eq in Ha. apply Z.eqb_eq in Hb. cbn in Ha, Hb.
    destruct wh as [c d]. cbn in Ha, Hb. subst. exact HI.
  - intros HI. exists wh. split; [exact HI|]. rewrite !Z.eqb_refl. reflexivity.
Qed.

Lemma typical_width_In (w : Z) :
  existsb (Z.eqb w) V05.typical_widths = true <-> In w V05.typical_widths.
Proof.
  rewrite existsb_exists. split.
  - intros [x [HI HE]]. apply Z.eqb_eq in HE. subst. exact HI.
  - intros HI. exists w. split; [exact HI | apply Z.eqb_refl].
Qed.

(** *** C1: the final probability lies in [0, 1]

    C1. Whenever analysis succeeds, the probability the pipeline returns
    ([is_ai_probability] in v0.5, [prefilter_score] in v0.6) satisfies
    [0.0 <= p <= 1.0], whatever the checks contributed: the sum is clamped
    by [max(0.0, min(score, 1.0))] and rounding keeps it in the interval. *)
Theorem C1_final_probability_in_unit_interval
  (TAGS : Z -> option string) (str_lower : string -> string)
  (Image_open : list byte -> Exc OpenedImage)
  (sha256_hexdigest : list byte -> string) (data : list byte) :
  (forall r, V05.analyze_image TAGS str_lower Image_open data = Return r ->
             between 0 1 (V05.is_ai_probability r)) /\
  (forall r, V06.analyze_image TAGS str_lower Image_open sha256_hexdigest data = V06.StatusSuccess r ->
             between 0 1 (V06.prefilter_score (V06.heuristic_results r))).
Proof.
  split; intros r H.
  - unfold V05.analyze_image, bind in H.
    destruct (V05.load_image Image_open data) as [img | e]; [|discriminate].
    destruct (V05.base_score_from_image img []) as [[score w0] | e]; [|discriminate].
    destruct (V05.exif_score TAGS str_lower img w0) as [s1 w1].
    destruct (V05.smoothness_score img w1) as [[s2 w2] | e]; [|discriminate].
    destruct (V05.oversharp_score img w2) as [[s3 w3] | e]; [|discriminate].
    destruct (V05.color_score img w3) as [[s4 w4] | e]; [|discriminate].
    destruct (V05.resolution_score img w4) as [s5 w5].
    destruct (V05.weird_hand_score img w5) as [s6 w6].
    injection H as <-. cbn [V05.is_ai_probability].
    apply round_clamp_unit_2.
  - unfold V06.analyze_image, bind in H.
    destruct (V06.validate_image_data Image_open data) as [u | e];
      [|destruct e; discriminate].
    destruct (V06.load_image Image_open data) as [img | e];
      [|destruct e; discriminate].
    destruct (size img) as [w h].
    injection H as <-. cbn [V06.heuristic_results].
    unfold V06.prefilter_heuristics, V06.summarize.
    destruct (V06.determine_level _) as [level needs_ml].
    cbn [V06.prefilter_score].
    apply round_clamp_unit_3.
Qed.

(** The self-test image succeeds in both pipelines, with probabilities
    in the interval. *)
Lemma C1_witness :
  exists r5 r6,
    V05.analyze_image Samples.TAGS Py.ascii_lower (Samples.decode_as Samples.gray_512) Samples.one_byte
      = Return r5 /\
    between 0 1 (V05.is_ai_probability r5) /\
    V06.analyze_image Samples.TAGS Py.ascii_lower (Samples.decode_as Samples.gray_512)
      Samples.sha256_hexdigest Samples.one_byte = V06.StatusSuccess r6 /\
    between 0 1 (V06.prefilter_score (V06.heuristic_results r6)).
Proof.
  destruct (C1_final_probability_in_unit_interval Samples.TAGS Py.ascii_lower
              (Samples.decode_as Samples.gray_512) Samples.sha256_hexdigest
              Samples.one_byte) as [H5 H6].
  eexists. eexists.
  split; [vm_compute; reflexivity|].
  split; [apply H5; vm_compute; reflexivity|].
  split; [vm_compute; reflexivity|].
  apply H6. vm_compute. reflexivity.
Defined.

(** *** C2: tiers of the clamped total

    C2. For the clamped aggregate score [s] the aggregator reports:
    [s >= 0.70] gives obvious_ai without ML verification;
    [0.40 <= s < 0.70] gives suspicious with ML verification;
    [0.20 <= s < 0.40] gives uncertain with ML verification;
    [s < 0.20] gives likely_real without ML verification; and one of the
    four cases always applies. *)
Theorem C2_tier_thresholds (st : V06.LoopState) :
  let s := Py.max 0.0 (Py.min (V06.total_score st) 1.0) in
  let r := V06.summarize st in
  ((0.70 <=? s) = true ->
     V06.detection_level r = "obvious_ai" /\ V06.needs_ml_verification r = false) /\
  ((0.40 <=? s) = true /\ (s <? 0.70) = true ->
     V06.detection_level r = "suspicious" /\ V06.needs_ml_verification r = true) /\
  ((0.20 <=? s) = true /\ (s <? 0.40) = true ->
     V06.detection_level r = "uncertain" /\ V06.needs_ml_verification r = true) /\
  ((s <? 0.20) = true ->
     V06.detection_level r = "likely_real" /\ V06.needs_ml_verification r = false) /\
  ((0.70 <=? s) = true \/ ((0.40 <=? s) = true /\ (s <? 0.70) = true) \/
   ((0.20 <=? s) = true /\ (s <? 0.40) = true) \/ (s <? 0.20) = true).
Proof.
  intros s r. subst r. unfold V06.summarize. fold s.
  pose proof (clamp_unit (V06.total_score st)) as [U0 U1]. fold s in U0, U1.
  clearbody s. unfold V06.determine_level.
  refine (conj _ (conj _ (conj _ (conj _ _)))).
  - intros H. rewrite H. cbn. split; reflexivity.
  - intros [H1 H2].
    assert (E70 : (0.70 <=? s) = false) by float_order.
    rewrite E70, H1. cbn. split; reflexivity.
  - intros [H1 H2].
    assert (E70 : (0.70 <=? s) = false) by float_order.
    assert (E40 : (0.40 <=? s) = false) by float_order.
    rewrite E70, E40, H1. cbn. split; reflexivity.
  - intros H.
    assert (E70 : (0.70 <=? s) = false) by float_order.
    assert (E40 : (0.40 <=? s) = false) by float_order.
    assert (E20 : (0.20 <=? s) = false) by float_order.
    rewrite E70, E40, E20. cbn. split; reflexivity.
  - destruct (0.70 <=? s) eqn:E70; [left; reflexivity|right].
    destruct (0.40 <=? s) eqn:E40; [left; split; [reflexivity|float_order]|right].
    destruct (0.20 <=? s) eqn:E20; [left; split; [reflexivity|float_order]|right].
    float_order.
Qed.

(** One total in each tier. *)
Lemma C2_witness :
  V06.detection_level
    (V06.summarize {| V06.total_score := 0.85; V06.all_flags := []; V06.breakdown := [] |})
    = "obvious_ai" /\
  V06.detection_level
    (V06.summarize {| V06.total_score := 0.55; V06.all_flags := []; V06.breakdown := [] |})
    = "suspicious" /\
  V06.detection_level
    (V06.summarize {| V06.total_score := 0.25; V06.all_flags := []; V06.breakdown := [] |})
    = "uncertain" /\
  V06.detection_level
    (V06.summarize {| V06.total_score := 0.15; V06.all_flags := []; V06.breakdown := [] |})
    = "likely_real".
Proof.
  repeat apply conj.
  - apply (proj1 (C2_tier_thresholds
                    {| V06.total_score := 0.85; V06.all_flags := []; V06.breakdown := [] |})).
    reflexivity.
  - apply (proj1 (proj2 (C2_tier_thresholds
                    {| V06.total_score := 0.55; V06.all_flags := []; V06.breakdown := [] |}))).
    split; reflexivity.
  - apply (proj1 (proj2 (proj2 (C2_tier_thresholds
                    {| V06.total_score := 0.25; V06.all_flags := []; V06.breakdown := [] |})))).
    split; reflexivity.
  - apply (proj1 (proj2 (proj2 (proj2 (C2_tier_thresholds
                    {| V06.total_score := 0.15; V06.all_flags := []; V06.breakdown := [] |}))))).
    reflexivity.
Defined.

(** *** C3: failures inside a check *)

(** C3, as stated, fails in three ways: unreadable EXIF leaves no flag in
    the v0.6 metadata check; it contributes 0.05, not zero, in v0.5; and a
    failing edge filter in v0.5 escapes [analyze_image] as an exception. *)
Lemma C3_failures_not_uniformly_degraded :
  (V06.check_metadata_red_flags Samples.TAGS Py.ascii_lower
     (Samples.photo (Raise (Exception "corrupt EXIF"))) = (0.0, [])) /\
  (V05.exif_score Samples.TAGS Py.ascii_lower (Samples.photo (Raise (Exception "corrupt EXIF"))) []
     = (0.05, ["EXIF nicht lesbar – wirkt KI-typisch."])) /\
  (edge_mean Samples.broken_filter = Raise (Exception "filter failed") /\
   V05.analyze_image Samples.TAGS Py.ascii_lower (Samples.decode_as Samples.broken_filter)
     Samples.one_byte = Raise (Exception "filter failed")).
Proof. repeat split. Qed.

(** C3, amended. In v0.6 no failure inside a check fails the request. A
    failing edge, smoothness or geometry step contributes what a quiet step
    contributes, namely zero, and adds its failure flag while the other
    steps run as before; a failing colour analysis gives score 0.0 and its
    failure flag; unreadable EXIF gives score 0.0 and no flag; a check
    function that raises is recorded by the loop with score 0.0 and a
    "<name> check failed" flag, and the loop goes on with the remaining
    checks; once validation and loading succeed the response is a success.
    In v0.5 unreadable EXIF contributes 0.05 with a flag and a failing
    contour check contributes 0.0 without one. *)
Theorem C3_check_failures_degrade
  (TAGS : Z -> option string) (str_lower : string -> string) (img : Image) (e : exn) :
  (edge_mean img = Raise e ->
   let quiet := with_edge_mean img (Return 0.0) in
   fst (V06.check_obvious_ai_artifacts img) = fst (V06.check_obvious_ai_artifacts quiet) /\
   snd (V06.check_obvious_ai_artifacts img)
     = ("Edge detection failed: " ++ str_exn e)
         :: snd (V06.check_obvious_ai_artifacts quiet)) /\
  (luma_var img = Raise e ->
   let quiet := with_luma_var img (Return 150.0) in
   fst (V06.check_obvious_ai_artifacts img) = fst (V06.check_obvious_ai_artifacts quiet) /\
   forall f, In f (snd (V06.check_obvious_ai_artifacts img)) <->
             In f (("Smoothness check failed: " ++ str_exn e)
                     :: snd (V06.check_obvious_ai_artifacts quiet))) /\
  (edge_std_mean_256 img = Raise e ->
   let quiet := with_edge_std_mean_256 img (Return (10.0, 50.0)) in
   fst (V06.check_obvious_ai_artifacts img) = fst (V06.check_obvious_ai_artifacts quiet) /\
   snd (V06.check_obvious_ai_artifacts img)
     = Py.append (snd (V06.check_obvious_ai_artifacts quiet))
         ("Geometry check failed: " ++ str_exn e)) /\
  (stddev img = Raise e ->
   V06.check_color_anomalies img = (0.0, ["Color analysis failed: " ++ str_exn e])) /\
  (getexif img = Raise e ->
   V06.check_metadata_red_flags TAGS str_lower img = (0.0, [])) /\
  (forall st name check_func,
     check_func img = Raise e ->
     V06.run_check img st (name, check_func)
     = {| V06.total_score := V06.total_score st;
          V06.all_flags :=
            Py.append (V06.all_flags st) (name ++ " check failed: " ++ str_exn e);
          V06.breakdown :=
            Py.dict_set (V06.breakdown st) name
              {| V06.entry_score := 0.0;
                 V06.entry_flags := ["Check failed: " ++ str_exn e] |} |}) /\
  (forall before check after,
     V06.run_checks img (before ++ check :: after)
     = fold_left (V06.run_check img) after
         (V06.run_check img (V06.run_checks img before) check)) /\
  (forall Image_open sha256_hexdigest data,
     V06.validate_image_data Image_open data = Return tt ->
     V06.load_image Image_open data = Return img ->
     exists r,
       V06.analyze_image TAGS str_lower Image_open sha256_hexdigest data = V06.StatusSuccess r /\
       V06.heuristic_results r = V06.prefilter_heuristics TAGS str_lower img) /\
  (getexif img = Raise e ->
   forall warnings,
     V05.exif_score TAGS str_lower img warnings
     = (0.05, Py.append warnings "EXIF nicht lesbar – wirkt KI-typisch.")) /\
  (edge_mean_128 img = Raise e ->
   forall warnings, V05.weird_hand_score img warnings = (0.0, warnings)).
Proof.
  refine (conj _ (conj _ (conj _ (conj _ (conj _ (conj _ (conj _ (conj _ (conj _ _))))))))).
  - intros H quiet. subst quiet. unfold V06.check_obvious_ai_artifacts.
    cbn [with_edge_mean edge_mean luma_var edge_std_mean_256]. rewrite H.
    change (V06.extreme_sharpness_threshold V06.CONFIG <? 0.0) with false.
    destruct (luma_var img) as [v | e2];
      [destruct (v <? V06.extreme_smoothness_threshold V06.CONFIG)|];
      (destruct (edge_std_mean_256 img) as [[sd mn] | e3];
       [destruct ((sd <? 10) && (50 <? mn))|]);
      split; reflexivity.
  - intros H quiet. subst quiet. unfold V06.check_obvious_ai_artifacts.
    cbn [with_luma_var edge_mean luma_var edge_std_mean_256]. rewrite H.
    change (150.0 <? V06.extreme_smoothness_threshold V06.CONFIG) with false.
    destruct (edge_mean img) as [em | e1];
      [destruct (V06.extreme_sharpness_threshold V06.CONFIG <? em)|];
      (destruct (edge_std_mean_256 img) as [[sd mn] | e3];
       [destruct ((sd <? 10) && (50 <? mn))|]);
      (split; [reflexivity|]); intros f; cbn; tauto.
  - intros H quiet. subst quiet. unfold V06.check_obvious_ai_artifacts.
    cbn [with_edge_std_mean_256 edge_mean luma_var edge_std_mean_256]. rewrite H.
    change ((10.0 <? 10) && (50 <? 50.0)) with false.
    destruct (edge_mean img) as [em | e1];
      [destruct (V06.extreme_sharpness_threshold V06.CONFIG <? em)|];
      (destruct (luma_var img) as [v | e2];
       [destruct (v <? V06.extreme_smoothness_threshold V06.CONFIG)|]);
      split; reflexivity.
  - intros H. unfold V06.check_color_anomalies. rewrite H. reflexivity.
  - intros H. unfold V06.check_metadata_red_flags. rewrite H. reflexivity.
  - intros st name check_func H. unfold V06.run_check. rewrite H. reflexivity.
  - intros before check after. unfold V06.run_checks.
    rewrite fold_left_app. reflexivity.
  - intros Image_open sha256_hexdigest data Hv Hl.
    unfold V06.analyze_image, bind. rewrite Hv, Hl.
    destruct (size img) as [w h]. eexists. split; reflexivity.
  - intros H warnings. unfold V05.exif_score. rewrite H. reflexivity.
  - intros H warnings. unfold V05.weird_hand_score. rewrite H. reflexivity.
Qed.

(** A failing edge filter and unreadable EXIF in v0.6. *)
Lemma C3_witness :
  V06.check_obvious_ai_artifacts Samples.broken_filter
    = (0.0, ["Edge detection failed: filter failed"]) /\
  V06.check_metadata_red_flags Samples.TAGS Py.ascii_lower
    (Samples.photo (Raise (Exception "corrupt EXIF"))) = (0.0, []) /\
  (exists r,
     V06.analyze_image Samples.TAGS Py.ascii_lower (Samples.decode_as Samples.broken_filter)
       Samples.sha256_hexdigest Samples.one_byte = V06.StatusSuccess r /\
     V06.heuristic_results r = V06.prefilter_heuristics Samples.TAGS Py.ascii_lower Samples.broken_filter).
Proof.
  split; [|split].
  - pose proof (proj1 (C3_check_failures_degrade Samples.TAGS Py.ascii_lower Samples.broken_filter
                         (Exception "filter failed")) eq_refl) as [H1 H2].
    apply injective_projections; [exact H1 | exact H2].
  - apply (proj1 (proj2 (proj2 (proj2 (proj2
             (C3_check_failures_degrade Samples.TAGS Py.ascii_lower
                (Samples.photo (Raise (Exception "corrupt EXIF")))
                (Exception "corrupt EXIF"))))))).
    reflexivity.
  - apply (proj1 (proj2 (proj2 (proj2 (proj2 (proj2 (proj2 (proj2
             (C3_check_failures_degrade Samples.TAGS Py.ascii_lower Samples.broken_filter
                (Exception "filter failed")))))))))
             (Samples.decode_as Samples.broken_filter) Samples.sha256_hexdigest
             Samples.one_byte);
      reflexivity.
Defined.

(** *** C4: the empty buffer

    C4, as stated, fails on v0.5: its [analyze_image] has no validation,
    hands the empty buffer to the decoder and raises the decoder's
    exception again. *)
Lemma C4_v05_raises_on_empty_buffer :
  V05.analyze_image Samples.TAGS Py.ascii_lower (Samples.decode_as Samples.gray_512) []
  = Raise (Exception "cannot identify image file").
Proof. reflexivity. Qed.

(** C4, amended. For the empty buffer the v0.6 entry point returns a
    validation error with the message "Empty image data" whatever the
    decoder would do (nothing is decoded, so no heuristic check runs); the
    v0.5 entry point validates nothing and raises whatever exception the
    decoder raises on the empty buffer. *)
Theorem C4_empty_buffer
  (TAGS : Z -> option string) (str_lower : string -> string)
  (Image_open : list byte -> Exc OpenedImage)
  (sha256_hexdigest : list byte -> string) :
  V06.validate_image_data Image_open [] = Raise (ImageValidationError "Empty image data") /\
  V06.analyze_image TAGS str_lower Image_open sha256_hexdigest []
    = V06.StatusError "validation_error" "Empty image data" /\
  (forall e, Image_open [] = Raise e ->
             V05.analyze_image TAGS str_lower Image_open [] = Raise e).
Proof.
  split; [reflexivity|]. split; [reflexivity|].
  intros e H. unfold V05.analyze_image, V05.load_image, bind. rewrite H. reflexivity.
Qed.

(** Both behaviours with a decoder that cannot identify an empty file. *)
Lemma C4_witness :
  V05.analyze_image Samples.TAGS Py.ascii_lower (Samples.decode_as Samples.gray_512) []
  = Raise (Exception "cannot identify image file") /\
  V06.analyze_image Samples.TAGS Py.ascii_lower (Samples.decode_as Samples.gray_512)
    Samples.sha256_hexdigest []
  = V06.StatusError "validation_error" "Empty image data".
Proof.
  pose proof (C4_empty_buffer Samples.TAGS Py.ascii_lower (Samples.decode_as Samples.gray_512)
                Samples.sha256_hexdigest) as [_ [H6 H5]].
  split; [apply H5; reflexivity | exact H6].
Defined.

(** *** C5: inclusive validation bounds *)

(** C5. With the module's [CONFIG] (20 MB, 32 to 8192 pixels): a buffer
    of exactly 20 * 1024 * 1024 bytes passes the size check and goes on to
    the dimension check, one byte more is rejected with "Image too large";
    an opened image whose sides both lie in [32, 8192], bounds included,
    passes the dimension check, a side below 32 is rejected with
    "Dimensions too small" and a side above 8192 with "Dimensions too
    large". *)
Theorem C5_validation_boundaries (Image_open : list byte -> Exc OpenedImage) :
  (forall data,
     Py.len data = (V06.max_file_size_mb V06.CONFIG * (1024 * 1024))%Z ->
     V06.size_exceeds_limit data = false /\
     V06.validate_image_data Image_open data
       = V06.validate_opened_image Image_open data) /\
  (forall data,
     Py.len data = (V06.max_file_size_mb V06.CONFIG * (1024 * 1024) + 1)%Z ->
     V06.size_exceeds_limit data = true /\
     V06.validate_image_data Image_open data
       = Raise (ImageValidationError "Image too large: 20.0MB (max: 20MB)")) /\
  (forall data img w h,
     Image_open data = Return img -> opened_size img = (w, h) ->
     ((V06.min_dimension V06.CONFIG <= w <= V06.max_dimension V06.CONFIG)%Z /\
      (V06.min_dimension V06.CONFIG <= h <= V06.max_dimension V06.CONFIG)%Z ->
      V06.validate_opened_image Image_open data = Return tt) /\
     (((w < V06.min_dimension V06.CONFIG)%Z \/ (h < V06.min_dimension V06.CONFIG)%Z) /\
      (w <= V06.max_dimension V06.CONFIG)%Z /\ (h <= V06.max_dimension V06.CONFIG)%Z ->
      V06.validate_opened_image Image_open data
        = Raise (ImageValidationError
                   ("Dimensions too small: " ++ Py.str_int w ++ "x" ++ Py.str_int h
                    ++ " (min: 32)"))) /\
     ((V06.max_dimension V06.CONFIG < w)%Z \/ (V06.max_dimension V06.CONFIG < h)%Z ->
      V06.validate_opened_image Image_open data
        = Raise (ImageValidationError
                   ("Dimensions too large: " ++ Py.str_int w ++ "x" ++ Py.str_int h
                    ++ " (max: 8192)")))).
Proof.
  change (V06.max_file_size_mb V06.CONFIG) with 20%Z.
  change (V06.min_dimension V06.CONFIG) with 32%Z.
  change (V06.max_dimension V06.CONFIG) with 8192%Z.
  refine (conj _ (conj _ _)).
  - intros data H.
    assert (S : V06.size_exceeds_limit data = false).
    { unfold V06.size_exceeds_limit. rewrite H. vm_compute. reflexivity. }
    split; [exact S|].
    unfold V06.validate_image_data. rewrite S.
    destruct data as [ | b l]; [discriminate H | reflexivity].
  - intros data H.
    assert (S : V06.size_exceeds_limit data = true).
    { unfold V06.size_exceeds_limit. rewrite H. vm_compute. reflexivity. }
    split; [exact S|].
    unfold V06.validate_image_data. rewrite S, H.
    destruct data as [ | b l]; [discriminate H|].
    cbn [Py.truthy negb]. vm_compute. reflexivity.
  - intros data img w h Ho Hs.
    unfold V06.validate_opened_image, bind. rewrite Ho, Hs.
    change (V06.min_dimension V06.CONFIG) with 32%Z.
    change (V06.max_dimension V06.CONFIG) with 8192%Z.
    refine (conj _ (conj _ _)).
    + intros [[Hw1 Hw2] [Hh1 Hh2]].
      destruct (Z.ltb_spec 8192 w); [lia|]. destruct (Z.ltb_spec 8192 h); [lia|].
      destruct (Z.ltb_spec w 32); [lia|]. destruct (Z.ltb_spec h 32); [lia|].
      reflexivity.
    + intros [Hlt [Hw Hh]].
      destruct (Z.ltb_spec 8192 w); [lia|]. destruct (Z.ltb_spec 8192 h); [lia|].
      cbn [orb].
      destruct (Z.ltb_spec w 32); destruct (Z.ltb_spec h 32); try lia; reflexivity.
    + intros Hgt.
      destruct (Z.ltb_spec 8192 w); destruct (Z.ltb_spec 8192 h); try lia; reflexivity.
Qed.

(** Buffers of 20 MB and 20 MB + 1 byte, and images of 32 x 8192,
    31 x 8192 and 32 x 8193 pixels. *)
Lemma C5_witness :
  V06.validate_image_data (Samples.decode_with_size (32, 8192)%Z) (Samples.buffer 20971520)
    = Return tt /\
  V06.validate_image_data (Samples.decode_with_size (32, 8192)%Z) (Samples.buffer 20971521)
    = Raise (ImageValidationError "Image too large: 20.0MB (max: 20MB)") /\
  V06.validate_opened_image (Samples.decode_with_size (31, 8192)%Z) Samples.one_byte
    = Raise (ImageValidationError "Dimensions too small: 31x8192 (min: 32)") /\
  V06.validate_opened_image (Samples.decode_with_size (32, 8193)%Z) Samples.one_byte
    = Raise (ImageValidationError "Dimensions too large: 32x8193 (max: 8192)").
Proof.
  split; [|split; [|split]].
  - destruct (C5_validation_boundaries (Samples.decode_with_size (32, 8192)%Z))
      as [H1 [_ H3]].
    destruct (H1 (Samples.buffer 20971520) (len_buffer 20971520 ltac:(lia))) as [_ ->].
    apply (H3 (Samples.buffer 20971520) _ 32%Z 8192%Z eq_refl eq_refl).
    cbn. lia.
  - destruct (C5_validation_boundaries (Samples.decode_with_size (32, 8192)%Z))
      as [_ [H2 _]].
    apply (H2 (Samples.buffer 20971521) (len_buffer 20971521 ltac:(lia))).
  - destruct (C5_validation_boundaries (Samples.decode_with_size (31, 8192)%Z))
      as [_ [_ H3]].
    apply (H3 Samples.one_byte _ 31%Z 8192%Z eq_refl eq_refl).
    cbn. lia.
  - destruct (C5_validation_boundaries (Samples.decode_with_size (32, 8193)%Z))
      as [_ [_ H3]].
    apply (H3 Samples.one_byte _ 32%Z 8193%Z eq_refl eq_refl).
    cbn. lia.
Defined.

(** *** C6: no check triggers *)

(** C6, as stated, fails on v0.5: a photograph on which no check triggers
    (no warning at all) gets the base score 0.30, not zero. *)
Lemma C6_v05_untriggered_score_is_base :
  V05.analyze_image Samples.TAGS Py.ascii_lower
    (Samples.decode_as (Samples.photo (Return [(305%Z, "GIMP")]))) Samples.one_byte
  = Return {| V05.is_ai_probability := 0.30;
              V05.warnings := [];
              V05.dimensions := (1920, 1080)%Z |} /\
  (0.30 <=? 0) = false.
Proof. split; vm_compute; reflexivity. Qed.

Lemma quiet_artifacts (img : Image) :
  snd (V06.check_obvious_ai_artifacts img) = [] ->
  V06.check_obvious_ai_artifacts img = (0.0, []).
Proof.
  unfold V06.check_obvious_ai_artifacts.
  destruct (edge_mean img) as [em | e1];
    [destruct (V06.extreme_sharpness_threshold V06.CONFIG <? em)|];
    (destruct (luma_var img) as [v | e2];
     [destruct (v <? V06.extreme_smoothness_threshold V06.CONFIG)|]);
    (destruct (edge_std_mean_256 img) as [[sd mn] | e3];
     [destruct ((sd <? 10) && (50 <? mn))|]);
    cbn; intros H; try discriminate H; reflexivity.
Qed.

Lemma fold_scan_tag_quiet (tags : list string) (acc : float * list string) :
  snd (fold_left V06.scan_tag tags acc) = [] ->
  snd acc = [] /\ fst (fold_left V06.scan_tag tags acc) = fst acc.
Proof.
  revert acc. induction tags as [ | t tags IH]; intros acc H; cbn [fold_left] in *.
  - split; [exact H | reflexivity].
  - apply IH in H. destruct H as [H1 H2]. rewrite H2. clear H2 IH.
    destruct acc as [score flags]. unfold V06.scan_tag in *.
    destruct (find _ V06.ai_markers); cbn [fst snd] in *.
    + exfalso. exact (append_not_nil _ _ _ H1).
    + split; [exact H1 | reflexivity].
Qed.

Lemma quiet_metadata (TAGS : Z -> option string) (str_lower : string -> string)
  (img : Image) :
  snd (V06.check_metadata_red_flags TAGS str_lower img) = [] ->
  V06.check_metadata_red_flags TAGS str_lower img = (0.0, []).
Proof.
  unfold V06.check_metadata_red_flags.
  destruct (getexif img) as [exif | e]; [|reflexivity].
  destruct (Py.truthy exif); [|reflexivity].
  pose proof (fold_scan_tag_quiet (V06.software_tags TAGS str_lower exif) (0.0, [])) as Q.
  destruct (fold_left V06.scan_tag _ _) as [score flags]. cbn [fst snd] in *.
  intros H. destruct (Q H) as [_ ->]. rewrite H. reflexivity.
Qed.

Lemma quiet_format (img : Image) :
  snd (V06.check_format_patterns img) = [] ->
  V06.check_format_patterns img = (0.0, []).
Proof.
  unfold V06.check_format_patterns. destruct (size img) as [w h].
  destruct (_ || _); cbn; intros H; [discriminate H | reflexivity].
Qed.

Lemma quiet_color (img : Image) :
  snd (V06.check_color_anomalies img) = [] ->
  V06.check_color_anomalies img = (0.0, []).
Proof.
  unfold V06.check_color_anomalies.
  destruct (stddev img) as [[[r g] b] | e]; [|discriminate].
  destruct (_ <? 3.0); destruct (70 <? _); cbn; intros H;
    try discriminate H; reflexivity.
Qed.

Lemma quiet_paper (img : Image) (w w' : list string) (s : float) :
  V05.detect_paper_or_scan img w = Return (s, w') -> w' = [] ->
  w = [] /\ s = 0.0.
Proof.
  unfold V05.detect_paper_or_scan, bind.
  destruct (white_ratio img) as [x | e]; [|discriminate].
  destruct (0.65 <? x); intros H; injection H as <- <-; intros N.
  - exfalso. exact (append_not_nil _ _ _ N).
  - split; [exact N | reflexivity].
Qed.

Lemma quiet_base (img : Image) (w w' : list string) (s : float) :
  V05.base_score_from_image img w = Return (s, w') -> w' = [] ->
  w = [] /\ s = 0.30.
Proof.
  unfold V05.base_score_from_image, bind.
  destruct (V05.detect_paper_or_scan img w) as [[paper w1] | e] eqn:P; [|discriminate].
  destruct (size img) as [wd ht].
  destruct (wd =? ht)%Z;
    (destruct (luma_percentile_10 img) as [low_p | e]; [|discriminate]);
    destruct (low_p <? 40); intros H; injection H as <- <-; intros N;
    try (exfalso; exact (append_not_nil _ _ _ N)).
  destruct (quiet_paper _ _ _ _ P N) as [-> ->].
  split; reflexivity.
Qed.

Lemma quiet_exif (TAGS : Z -> option string) (str_lower : string -> string)
  (img : Image) (w : list string) :
  snd (V05.exif_score TAGS str_lower img w) = [] ->
  w = [] /\ fst (V05.exif_score TAGS str_lower img w) = 0.0.
Proof.
  unfold V05.exif_score.
  destruct (getexif img) as [exif | e]; cbn [snd];
    [|intros N; exfalso; exact (append_not_nil _ _ _ N)].
  destruct (_ || _); cbn [snd];
    [intros N; exfalso; exact (append_not_nil _ _ _ N)|].
  destruct (V05.find_camera TAGS str_lower exif); cbn [fst snd]; intros N;
    [exfalso; exact (append_not_nil _ _ _ N)|].
  split; [exact N | reflexivity].
Qed.

Lemma quiet_smoothness (img : Image) (w w' : list string) (s : float) :
  V05.smoothness_score img w = Return (s, w') -> w' = [] ->
  w = [] /\ s = 0.0.
Proof.
  unfold V05.smoothness_score, bind.
  destruct (luma_var img) as [x | e]; [|discriminate].
  destruct (x <? 260); [|destruct (_ && _)];
    intros H; injection H as <- <-; intros N;
    try (exfalso; exact (append_not_nil _ _ _ N)).
  split; [exact N | reflexivity].
Qed.

Lemma quiet_oversharp (img : Image) (w w' : list string) (s : float) :
  V05.oversharp_score img w = Return (s, w') -> w' = [] ->
  w = [] /\ s = 0.0.
Proof.
  unfold V05.oversharp_score, bind.
  destruct (edge_mean img) as [x | e]; [|discriminate].
  destruct (45 <? x); intros H; injection H as <- <-; intros N;
    try (exfalso; exact (append_not_nil _ _ _ N)).
  split; [exact N | reflexivity].
Qed.

Lemma quiet_color_score (img : Image) (w w' : list string) (s : float) :
  V05.color_score img w = Return (s, w') -> w' = [] ->
  w = [] /\ s = 0.0.
Proof.
  unfold V05.color_score, bind.
  destruct (stddev img) as [[[r g] b] | e]; [|discriminate].
  destruct (55 <? _); [|destruct (_ && _)];
    intros H; injection H as <- <-; intros N;
    try (exfalso; exact (append_not_nil _ _ _ N)).
  split; [exact N | reflexivity].
Qed.

Lemma quiet_resolution (img : Image) (w : list string) :
  snd (V05.resolution_score img w) = [] ->
  w = [] /\ fst (V05.resolution_score img w) = 0.0.
Proof.
  unfold V05.resolution_score. destruct (size img) as [wd ht].
  destruct (existsb _ _); destruct (_ <? _)%Z; cbn [fst snd]; intros N;
    try (exfalso; exact (append_not_nil _ _ _ N)).
  split; [exact N | reflexivity].
Qed.

Lemma quiet_weird_hand (img : Image) (w : list string) :
  snd (V05.weird_hand_score img w) = [] ->
  w = [] /\ fst (V05.weird_hand_score img w) = 0.0.
Proof.
  unfold V05.weird_hand_score.
  destruct (edge_mean_128 img) as [x | e]; [destruct (45 <? x)|];
    cbn [fst snd]; intros N;
    try (exfalso; exact (append_not_nil _ _ _ N));
    (split; [exact N | reflexivity]).
Qed.

(** C6, amended. When no check reports anything (every flag list is
    empty), the v0.6 pipeline returns a successful result with score 0.0,
    no flags and tier likely_real; the v0.5 pipeline returns its base score
    0.30 with no warnings. *)
Theorem C6_no_check_triggers
  (TAGS : Z -> option string) (str_lower : string -> string)
  (Image_open : list byte -> Exc OpenedImage)
  (sha256_hexdigest : list byte -> string) (data : list byte) :
  (forall img,
     V06.validate_image_data Image_open data = Return tt ->
     V06.load_image Image_open data = Return img ->
     snd (V06.check_obvious_ai_artifacts img) = [] ->
     snd (V06.check_metadata_red_flags TAGS str_lower img) = [] ->
     snd (V06.check_format_patterns img) = [] ->
     snd (V06.check_color_anomalies img) = [] ->
     exists r,
       V06.analyze_image TAGS str_lower Image_open sha256_hexdigest data = V06.StatusSuccess r /\
       V06.prefilter_score (V06.heuristic_results r) = 0.0 /\
       V06.flags (V06.heuristic_results r) = [] /\
       V06.detection_level (V06.heuristic_results r) = "likely_real" /\
       V06.needs_ml_verification (V06.heuristic_results r) = false) /\
  (forall r,
     V05.analyze_image TAGS str_lower Image_open data = Return r ->
     V05.warnings r = [] ->
     V05.is_ai_probability r = 0.30).
Proof.
  split.
  - intros img Hv Hl Ha Hm Hf Hc.
    unfold V06.analyze_image, bind. rewrite Hv, Hl.
    destruct (size img) as [w h]. eexists. split; [reflexivity|].
    cbn [V06.heuristic_results].
    unfold V06.prefilter_heuristics, V06.run_checks, V06.checks.
    cbn [fold_left]. unfold V06.run_check.
    rewrite (quiet_artifacts img Ha), (quiet_metadata TAGS str_lower img Hm),
      (quiet_format img Hf), (quiet_color img Hc).
    repeat split.
  - intros r H N. unfold V05.analyze_image, bind in H.
    destruct (V05.load_image Image_open data) as [img | e]; [|discriminate].
    destruct (V05.base_score_from_image img []) as [[s0 w0] | e] eqn:E0; [|discriminate].
    destruct (V05.exif_score TAGS str_lower img w0) as [s1 w1] eqn:E1.
    destruct (V05.smoothness_score img w1) as [[s2 w2] | e] eqn:E2; [|discriminate].
    destruct (V05.oversharp_score img w2) as [[s3 w3] | e] eqn:E3; [|discriminate].
    destruct (V05.color_score img w3) as [[s4 w4] | e] eqn:E4; [|discriminate].
    destruct (V05.resolution_score img w4) as [s5 w5] eqn:E5.
    destruct (V05.weird_hand_score img w5) as [s6 w6] eqn:E6.
    injection H as <-. cbn [V05.warnings V05.is_ai_probability] in *. subst w6.
    pose proof (quiet_weird_hand img w5) as Q6. rewrite E6 in Q6. cbn [fst snd] in Q6.
    destruct (Q6 eq_refl) as [-> ->]. clear Q6.
    pose proof (quiet_resolution img w4) as Q5. rewrite E5 in Q5. cbn [fst snd] in Q5.
    destruct (Q5 eq_refl) as [-> ->]. clear Q5.
    destruct (quiet_color_score _ _ _ _ E4 eq_refl) as [-> ->].
    destruct (quiet_oversharp _ _ _ _ E3 eq_refl) as [-> ->].
    destruct (quiet_smoothness _ _ _ _ E2 eq_refl) as [-> ->].
    pose proof (quiet_exif TAGS str_lower img w0) as Q1. rewrite E1 in Q1. cbn [fst snd] in Q1.
    destruct (Q1 eq_refl) as [-> ->]. clear Q1.
    destruct (quiet_base _ _ _ _ E0 eq_refl) as [_ ->].
    vm_compute. reflexivity.
Qed.

(** A plain photograph in both pipelines. *)
Lemma C6_witness :
  (exists r,
     V06.analyze_image Samples.TAGS Py.ascii_lower
       (Samples.decode_as (Samples.photo (Return [(305%Z, "GIMP")])))
       Samples.sha256_hexdigest Samples.one_byte = V06.StatusSuccess r /\
     V06.prefilter_score (V06.heuristic_results r) = 0.0 /\
     V06.flags (V06.heuristic_results r) = [] /\
     V06.detection_level (V06.heuristic_results r) = "likely_real" /\
     V06.needs_ml_verification (V06.heuristic_results r) = false) /\
  (exists r,
     V05.analyze_image Samples.TAGS Py.ascii_lower
       (Samples.decode_as (Samples.photo (Return [(305%Z, "GIMP")])))
       Samples.one_byte = Return r /\
     V05.warnings r = [] /\
     V05.is_ai_probability r = 0.30).
Proof.
  destruct (C6_no_check_triggers Samples.TAGS Py.ascii_lower
              (Samples.decode_as (Samples.photo (Return [(305%Z, "GIMP")])))
              Samples.sha256_hexdigest Samples.one_byte) as [H6 H5].
  split.
  - apply (H6 (Samples.photo (Return [(305%Z, "GIMP")]))); vm_compute; reflexivity.
  - eexists. split; [vm_compute; reflexivity|].
    split; [reflexivity|].
    apply H5; vm_compute; reflexivity.
Defined.

(** *** C7: the resolution bump *)

(** C7, as stated, fails on v0.5: a 512 x 1000 image matches no known
    resolution, in either orientation, and still receives the bump, for its
    width alone. *)
Lemma C7_width_only_match_gets_bump :
  ~ In (512, 1000)%Z (V06.known_ai_resolutions V06.CONFIG) /\
  ~ In (1000, 512)%Z (V06.known_ai_resolutions V06.CONFIG) /\
  size Samples.tall_512 = (512, 1000)%Z /\
  V05.resolution_score Samples.tall_512 []
    = (0.20, ["Typische KI-Auflösungsgröße erkannt."]).
Proof.
  split; [rewrite <- resolution_in_In; discriminate|].
  split; [rewrite <- resolution_in_In; discriminate|].
  split; reflexivity.
Qed.

(** C7, amended. The v0.6 format check adds its 0.15 bump if and only if
    the pair (width, height) or its rotation (height, width) is in the
    configured list; the v0.5 resolution check adds its 0.20 bump if and
    only if the width alone is one of 512, 768, 1024, 1536, 2048, whatever
    the height (and subtracts 0.15 below 200000 pixels). *)
Theorem C7_resolution_bump (img : Image) (w h : Z) (warnings : list string) :
  size img = (w, h) ->
  (In (w, h) (V06.known_ai_resolutions V06.CONFIG) \/
   In (h, w) (V06.known_ai_resolutions V06.CONFIG) ->
   V06.check_format_patterns img
     = (0.15, ["Exact match to common AI resolution: "
               ++ Py.str_int w ++ "x" ++ Py.str_int h])) /\
  (~ (In (w, h) (V06.known_ai_resolutions V06.CONFIG) \/
      In (h, w) (V06.known_ai_resolutions V06.CONFIG)) ->
   V06.check_format_patterns img = (0.0, [])) /\
  (In w V05.typical_widths ->
   fst (V05.resolution_score img warnings)
     = if (w * h <? 200000)%Z then 0.20 - 0.15 else 0.20) /\
  (~ In w V05.typical_widths ->
   fst (V05.resolution_score img warnings)
     = if (w * h <? 200000)%Z then 0.0 - 0.15 else 0.0).
Proof.
  intros Hs. refine (conj _ (conj _ (conj _ _))).
  - intros H. unfold V06.check_format_patterns. rewrite Hs.
    rewrite <- !resolution_in_In in H. apply orb_true_iff in H. rewrite H.
    reflexivity.
  - intros H. unfold V06.check_format_patterns. rewrite Hs.
    rewrite <- !resolution_in_In in H. rewrite <- orb_true_iff in H.
    apply not_true_is_false in H. rewrite H. reflexivity.
  - intros H. unfold V05.resolution_score. rewrite Hs.
    apply typical_width_In in H. rewrite H.
    destruct (w * h <? 200000)%Z; reflexivity.
  - intros H. unfold V05.resolution_score. rewrite Hs.
    rewrite <- typical_width_In in H. apply not_true_is_false in H. rewrite H.
    destruct (w * h <? 200000)%Z; reflexivity.
Qed.

(** 512 x 512 is bumped by v0.6; 512 x 1000 is not, but is by v0.5. *)
Lemma C7_witness :
  V06.check_format_patterns Samples.gray_512
    = (0.15, ["Exact match to common AI resolution: 512x512"]) /\
  V06.check_format_patterns Samples.tall_512 = (0.0, []) /\
  fst (V05.resolution_score Samples.tall_512 []) = 0.20.
Proof.
  split; [|split].
  - apply (proj1 (C7_resolution_bump Samples.gray_512 512 512 [] eq_refl)).
    left. cbn. tauto.
  - apply (proj1 (proj2 (C7_resolution_bump Samples.tall_512 512 1000 [] eq_refl))).
    intros [H | H]; apply resolution_in_In in H; discriminate H.
  - apply (proj1 (proj2 (proj2 (C7_resolution_bump Samples.tall_512 512 1000 [] eq_refl)))).
    cbn. tauto.
Defined.

(** *** C8: the EXIF check *)

(** C8, as stated, fails on the v0.6 metadata check: without EXIF, with
    unreadable EXIF and with a Canon [Make] tag alike it returns score 0.0
    and no flag. *)
Lemma C8_v06_metadata_check_ignores_absence_and_camera :
  getexif Samples.gray_512 = Return [] /\
  V06.check_metadata_red_flags Samples.TAGS Py.ascii_lower Samples.gray_512 = (0.0, []) /\
  V06.check_metadata_red_flags Samples.TAGS Py.ascii_lower
    (Samples.photo (Raise (Exception "corrupt EXIF"))) = (0.0, []) /\
  V06.check_metadata_red_flags Samples.TAGS Py.ascii_lower
    (Samples.photo (Return [(271%Z, "Canon")])) = (0.0, []).
Proof. repeat split. Qed.

Lemma find_camera_hit (TAGS : Z -> option string) (str_lower : string -> string)
  (exif : Exif)
  (tag : Z) (value k : string) :
  In (tag, value) exif -> TAGS tag = Some "Make" ->
  In k V05.camera_makers -> Py.contains k (str_lower value) = true ->
  exists v, V05.find_camera TAGS str_lower exif = Some v.
Proof.
  intros HI HT Hk Hc. induction exif as [ | [t v] rest IH]; [contradiction|].
  cbn [V05.find_camera].
  destruct (V05.tag_is TAGS t "Make"
            && existsb (fun k0 => Py.contains k0 (str_lower v)) V05.camera_makers)
    eqn:E.
  - exists v. reflexivity.
  - destruct HI as [HI | HI]; [|exact (IH HI)].
    injection HI as -> ->. exfalso.
    apply andb_false_iff in E. destruct E as [E | E].
    + unfold V05.tag_is in E. rewrite HT in E. discriminate.
    + assert (X : existsb (fun k0 => Py.contains k0 (str_lower value)) V05.camera_makers
                  = true).
      { apply existsb_exists. exists k. split; assumption. }
      rewrite X in E. discriminate.
Qed.

(** The metadata check reads the EXIF data through [software_tags] only. *)
Lemma metadata_by_software_tags
  (TAGS : Z -> option string) (str_lower : string -> string) (img : Image) (exif : Exif) :
  getexif img = Return exif ->
  V06.check_metadata_red_flags TAGS str_lower img
  = (Py.min (fst (fold_left V06.scan_tag (V06.software_tags TAGS str_lower exif) (0.0, []))) 1.0,
     snd (fold_left V06.scan_tag (V06.software_tags TAGS str_lower exif) (0.0, []))).
Proof.
  intros H. unfold V06.check_metadata_red_flags. rewrite H.
  destruct exif as [ | item rest]; [reflexivity|].
  cbn [Py.truthy].
  destruct (fold_left V06.scan_tag _ _) as [score flags]. reflexivity.
Qed.

(** Items named [Make] are not among the software tags. *)
Lemma software_tags_without_make
  (TAGS : Z -> option string) (str_lower : string -> string) (exif : Exif) :
  V06.software_tags TAGS str_lower
    (filter (fun item => negb (V06.tag_name_in TAGS (fst item) ["Make"])) exif)
  = V06.software_tags TAGS str_lower exif.
Proof.
  induction exif as [ | [tag value] rest IH]; [reflexivity|].
  cbn [filter fst].
  destruct (V06.tag_name_in TAGS tag ["Make"]) eqn:M; cbn [negb].
  - rewrite IH. cbn [V06.software_tags].
    replace (V06.tag_name_in TAGS tag ["Software"; "ProcessingSoftware"; "Model"])
      with false; [reflexivity|].
    unfold V06.tag_name_in in *. destruct (TAGS tag) as [n | ]; [|reflexivity].
    cbn [existsb] in M. rewrite orb_false_r in M. apply String.eqb_eq in M. subst n.
    reflexivity.
  - cbn [V06.software_tags]. rewrite IH. reflexivity.
Qed.

(** C8, amended. The v0.5 EXIF check returns 0.10 with a flag when the
    image has no EXIF tags and 0.05 with a flag when EXIF cannot be read;
    it returns -0.30 with a flag when the value of a [Make] tag, lowered by
    [str.lower], contains canon, sony, nikon or fujifilm; a negative score
    needs readable, non-empty EXIF, so the outcomes exclude each other.
    The v0.6 metadata check returns 0.0 without a flag when EXIF is absent
    or unreadable, and it does not look at the [Make] tag: removing every
    [Make] item from the EXIF data leaves its result unchanged. *)
Theorem C8_exif_check
  (TAGS : Z -> option string) (str_lower : string -> string)
  (img : Image) (warnings : list string) :
  (getexif img = Return [] ->
   V05.exif_score TAGS str_lower img warnings
     = (0.10, Py.append warnings ("Keine EXIF-Daten gefunden – KI typisch."))) /\
  (forall e, getexif img = Raise e ->
   V05.exif_score TAGS str_lower img warnings
     = (0.05, Py.append warnings ("EXIF nicht lesbar – wirkt KI-typisch."))) /\
  (forall exif tag value k,
     getexif img = Return exif -> In (tag, value) exif -> TAGS tag = Some "Make" ->
     In k V05.camera_makers -> Py.contains k (str_lower value) = true ->
     exists v, V05.exif_score TAGS str_lower img warnings
               = (-0.30, Py.append warnings ("Echte Kamera erkannt (" ++ v ++ ")."))) /\
  ((fst (V05.exif_score TAGS str_lower img warnings) <? 0) = true ->
   exists exif, getexif img = Return exif /\ exif <> []) /\
  (getexif img = Return [] \/ (exists e, getexif img = Raise e) ->
   V06.check_metadata_red_flags TAGS str_lower img = (0.0, [])) /\
  (forall img' exif,
     getexif img = Return exif ->
     getexif img'
       = Return (filter (fun item => negb (V06.tag_name_in TAGS (fst item) ["Make"])) exif) ->
     V06.check_metadata_red_flags TAGS str_lower img
     = V06.check_metadata_red_flags TAGS str_lower img').
Proof.
  refine (conj _ (conj _ (conj _ (conj _ (conj _ _))))).
  - intros H. unfold V05.exif_score. rewrite H. reflexivity.
  - intros e H. unfold V05.exif_score. rewrite H. reflexivity.
  - intros exif tag value k H HI HT Hk Hc. unfold V05.exif_score. rewrite H.
    destruct exif as [ | item rest]; [contradiction|].
    cbn [Py.truthy negb orb Py.len List.length].
    destruct (find_camera_hit TAGS str_lower _ _ _ _ HI HT Hk Hc) as [v Hv].
    rewrite Hv. exists v.
    replace (Z.of_nat (S (List.length rest)) =? 0)%Z with false
      by (symmetry; apply Z.eqb_neq; lia).
    reflexivity.
  - unfold V05.exif_score.
    destruct (getexif img) as [exif | e]; [|discriminate].
    destruct exif as [ | item rest]; [discriminate|].
    intros _. eexists. split; [reflexivity | discriminate].
  - intros [H | [e H]]; unfold V06.check_metadata_red_flags; rewrite H; reflexivity.
  - intros img' exif H H'.
    rewrite (metadata_by_software_tags TAGS str_lower img exif H).
    rewrite (metadata_by_software_tags TAGS str_lower img' _ H').
    rewrite software_tags_without_make. reflexivity.
Qed.

(** No EXIF, unreadable EXIF, a Canon camera, and a [Make] value that
    names an AI generator. *)
Lemma C8_witness :
  V05.exif_score Samples.TAGS Py.ascii_lower Samples.gray_512 []
    = (0.10, ["Keine EXIF-Daten gefunden – KI typisch."]) /\
  V05.exif_score Samples.TAGS Py.ascii_lower (Samples.photo (Raise (Exception "corrupt EXIF"))) []
    = (0.05, ["EXIF nicht lesbar – wirkt KI-typisch."]) /\
  (exists v, V05.exif_score Samples.TAGS Py.ascii_lower
               (Samples.photo (Return [(271%Z, "Canon")])) []
             = (-0.30, ["Echte Kamera erkannt (" ++ v ++ ")."])) /\
  V06.check_metadata_red_flags Samples.TAGS Py.ascii_lower
    (Samples.photo (Return [(271%Z, "Midjourney Cam")]))
  = V06.check_metadata_red_flags Samples.TAGS Py.ascii_lower (Samples.photo (Return [])).
Proof.
  split; [|split; [|split]].
  - apply (proj1 (C8_exif_check Samples.TAGS Py.ascii_lower Samples.gray_512 [])). reflexivity.
  - apply (proj1 (proj2 (C8_exif_check Samples.TAGS Py.ascii_lower
                           (Samples.photo (Raise (Exception "corrupt EXIF"))) []))
             (Exception "corrupt EXIF")).
    reflexivity.
  - apply (proj1 (proj2 (proj2 (C8_exif_check Samples.TAGS Py.ascii_lower
                           (Samples.photo (Return [(271%Z, "Canon")])) [])))
             [(271%Z, "Canon")] 271%Z "Canon" "canon").
    + reflexivity.
    + left. reflexivity.
    + reflexivity.
    + left. reflexivity.
    + reflexivity.
  - apply (proj2 (proj2 (proj2 (proj2 (proj2
             (C8_exif_check Samples.TAGS Py.ascii_lower
                (Samples.photo (Return [(271%Z, "Midjourney Cam")])) [])))))
             (Samples.photo (Return [])) [(271%Z, "Midjourney Cam")]);
      reflexivity.
Defined.

(** *** C9: the range of a single check's score *)

(** C9, as stated, fails on v0.5: the paper/scan relief is the score
    -0.25, below zero. *)
Lemma C9_paper_relief_is_negative :
  V05.detect_paper_or_scan Samples.scan []
    = Return (-0.25, ["Papier/Scan erkannt – geringes KI-Risiko."]) /\
  (0 <=? -0.25) = false.
Proof. split; reflexivity. Qed.

Lemma scan_tag_nonneg (acc : float * list string) (tag_value : string) :
  (0 <=? fst acc) = true -> (0 <=? fst (V06.scan_tag acc tag_value)) = true.
Proof.
  destruct acc as [score flags]. unfold V06.scan_tag. cbn [fst]. intros H.
  destruct (find _ V06.ai_markers); cbn [fst]; [|exact H].
  apply add_nonneg; [exact H | reflexivity].
Qed.

Lemma fold_scan_tag_nonneg (tags : list string) (acc : float * list string) :
  (0 <=? fst acc) = true ->
  (0 <=? fst (fold_left V06.scan_tag tags acc)) = true.
Proof.
  revert acc. induction tags as [ | t tags IH]; intros acc H; cbn [fold_left].
  - exact H.
  - apply IH, scan_tag_nonneg, H.
Qed.

Lemma metadata_score_unit (TAGS : Z -> option string) (str_lower : string -> string)
  (img : Image) :
  between 0 1 (fst (V06.check_metadata_red_flags TAGS str_lower img)).
Proof.
  unfold V06.check_metadata_red_flags.
  destruct (getexif img) as [exif | e]; [|split; reflexivity].
  destruct (Py.truthy exif); [|split; reflexivity].
  pose proof (fold_scan_tag_nonneg (V06.software_tags TAGS str_lower exif) (0.0, [])
                ltac:(reflexivity)) as H.
  destruct (fold_left V06.scan_tag _ _) as [score flags]. cbn [fst] in *.
  apply min_one_unit, H.
Qed.

Lemma artifacts_score_unit (img : Image) :
  between 0 1 (fst (V06.check_obvious_ai_artifacts img)).
Proof.
  unfold V06.check_obvious_ai_artifacts.
  destruct (edge_mean img) as [em | e1];
    [destruct (V06.extreme_sharpness_threshold V06.CONFIG <? em)|];
    (destruct (luma_var img) as [v | e2];
     [destruct (v <? V06.extreme_smoothness_threshold V06.CONFIG)|]);
    (destruct (edge_std_mean_256 img) as [[sd mn] | e3];
     [destruct ((sd <? 10) && (50 <? mn))|]);
    split; reflexivity.
Qed.

Lemma format_score_unit (img : Image) :
  between 0 1 (fst (V06.check_format_patterns img)).
Proof.
  unfold V06.check_format_patterns. destruct (size img) as [w h].
  destruct (_ || _); split; reflexivity.
Qed.

Lemma color_score_unit (img : Image) :
  between 0 1 (fst (V06.check_color_anomalies img)).
Proof.
  unfold V06.check_color_anomalies.
  destruct (stddev img) as [[[r g] b] | e]; [|split; reflexivity].
  destruct (_ <? 3.0); destruct (70 <? _); split; reflexivity.
Qed.

(** C9, amended. Every heuristic check returns a score of at most 1.0.
    The score is also at least 0.0 for every v0.6 check function and for
    the v0.5 checks [base_score_from_image] (which carries the square-format
    and lighting checks), [oversharp_score], [smoothness_score],
    [color_score] and [weird_hand_score].  The three v0.5 relief checks
    [detect_paper_or_scan], [exif_score] and [resolution_score] return
    negative scores by design and stay in [-0.30, 1.0]. *)
Theorem C9_check_score_ranges
  (TAGS : Z -> option string) (str_lower : string -> string)
  (img : Image) (warnings : list string) :
  (between 0 1 (fst (V06.check_obvious_ai_artifacts img)) /\
   between 0 1 (fst (V06.check_metadata_red_flags TAGS str_lower img)) /\
   between 0 1 (fst (V06.check_format_patterns img)) /\
   between 0 1 (fst (V06.check_color_anomalies img))) /\
  ((forall s w, V05.base_score_from_image img warnings = Return (s, w) ->
                between 0 1 s) /\
   (forall s w, V05.oversharp_score img warnings = Return (s, w) ->
                between 0 1 s) /\
   (forall s w, V05.smoothness_score img warnings = Return (s, w) ->
                between 0 1 s) /\
   (forall s w, V05.color_score img warnings = Return (s, w) ->
                between 0 1 s) /\
   between 0 1 (fst (V05.weird_hand_score img warnings))) /\
  ((forall s w, V05.detect_paper_or_scan img warnings = Return (s, w) ->
                between (-0.30) 1 s) /\
   between (-0.30) 1 (fst (V05.exif_score TAGS str_lower img warnings)) /\
   between (-0.30) 1 (fst (V05.resolution_score img warnings))).
Proof.
  refine (conj _ (conj _ _)).
  - refine (conj _ (conj _ (conj _ _))).
    + apply artifacts_score_unit.
    + apply metadata_score_unit.
    + apply format_score_unit.
    + apply color_score_unit.
  - refine (conj _ (conj _ (conj _ (conj _ _)))).
    + intros s w. unfold V05.base_score_from_image, bind.
      destruct (V05.detect_paper_or_scan img warnings) as [[paper w1] | e];
        [|discriminate].
      destruct (size img) as [wd ht].
      destruct (wd =? ht)%Z;
        (destruct (luma_percentile_10 img) as [low_p | e]; [|discriminate]);
        destruct (low_p <? 40); intros H; injection H as <- _;
        (apply (between_weaken 0.05 0.70);
         [reflexivity | reflexivity | apply clamp_between; reflexivity]).
    + intros s w. unfold V05.oversharp_score, bind.
      destruct (edge_mean img) as [x | e]; [|discriminate].
      destruct (45 <? x); intros H; injection H as <- _; split; reflexivity.
    + intros s w. unfold V05.smoothness_score, bind.
      destruct (luma_var img) as [x | e]; [|discriminate].
      destruct (x <? 260); [|destruct (_ && _)];
        intros H; injection H as <- _; split; reflexivity.
    + intros s w. unfold V05.color_score, bind.
      destruct (stddev img) as [[[r g] b] | e]; [|discriminate].
      destruct (55 <? _); [|destruct (_ && _)];
        intros H; injection H as <- _; split; reflexivity.
    + unfold V05.weird_hand_score.
      destruct (edge_mean_128 img) as [x | e]; [|split; reflexivity].
      destruct (45 <? x); split; reflexivity.
  - refine (conj _ (conj _ _)).
    + intros s w. unfold V05.detect_paper_or_scan, bind.
      destruct (white_ratio img) as [x | e]; [|discriminate].
      destruct (0.65 <? x); intros H; injection H as <- _; split; reflexivity.
    + unfold V05.exif_score.
      destruct (getexif img) as [exif | e]; [|split; reflexivity].
      destruct (_ || _); [split; reflexivity|].
      destruct (V05.find_camera TAGS str_lower exif); split; reflexivity.
    + unfold V05.resolution_score. destruct (size img) as [w h].
      destruct (existsb _ _); destruct (_ <? _)%Z; split; reflexivity.
Qed.

(** The scan's relief, the base score of the square gray image, and a
    metadata check with three AI markers. *)
Lemma C9_witness :
  between (-0.30) 1 (-0.25) /\
  between 0 1 0.5 /\
  between 0 1 (fst (V06.check_metadata_red_flags Samples.TAGS Py.ascii_lower
                      (Samples.photo (Return [(305%Z, "DALLE 3"); (272%Z, "Midjourney v5");
                                              (11%Z, "firefly")])))).
Proof.
  split; [|split].
  - apply (proj1 (proj2 (proj2 (C9_check_score_ranges Samples.TAGS Py.ascii_lower Samples.scan [])))
             (-0.25) ["Papier/Scan erkannt – geringes KI-Risiko."]).
    reflexivity.
  - apply (proj1 (proj1 (proj2 (C9_check_score_ranges Samples.TAGS Py.ascii_lower
                                  Samples.gray_512 [])))
             0.5 ["Quadratisches Bildformat – KI-typisch."]).
    reflexivity.
  - apply (proj1 (proj2 (proj1 (C9_check_score_ranges Samples.TAGS Py.ascii_lower
                    (Samples.photo (Return [(305%Z, "DALLE 3"); (272%Z, "Midjourney v5");
                                            (11%Z, "firefly")])) [])))).
Defined.

(** *** C10: the v0.5 base score lies in [0.05, 0.70]

    C10. In v0.5 the dynamic base score [base_score_from_image] returns
    satisfies [0.05 <= base <= 0.70] for every decoded image: the paper/scan
    relief cannot take it below 0.05 and the square and lighting bumps
    cannot take it above 0.70. *)
Theorem C10_base_score_bounds (img : Image) (warnings : list string)
  (base : float) (warnings' : list string) :
  V05.base_score_from_image img warnings = Return (base, warnings') ->
  between 0.05 0.70 base.
Proof.
  unfold V05.base_score_from_image, bind. intros H.
  destruct (V05.detect_paper_or_scan img warnings) as [[paper w1] | e]; [|discriminate].
  destruct (size img) as [w h].
  destruct (w =? h)%Z;
    (destruct (luma_percentile_10 img) as [low_p | e]; [|discriminate]);
    destruct (low_p <? 40); injection H as <- _;
    apply clamp_between; reflexivity.
Qed.

(** The scan reaches the lower bound; the square gray image gets 0.5. *)
Lemma C10_witness :
  between 0.05 0.70 0.05 /\ between 0.05 0.70 0.5.
Proof.
  split.
  - apply (C10_base_score_bounds Samples.scan [] 0.05
             ["Papier/Scan erkannt – geringes KI-Risiko."]).
    vm_compute. reflexivity.
  - apply (C10_base_score_bounds Samples.gray_512 [] 0.5
             ["Quadratisches Bildformat – KI-typisch."]).
    vm_compute. reflexivity.
Defined.
